(** * The Android DNS-SD bridge (src/platform/android/DnssdImpl.cpp)

    A shallow embedding of the service-type codec, the session handling of
    browse/stop-browse, the synchronous call-outs to the Java backend and the
    two result entry points (HandleResolve, HandleBrowse), with the
    properties the specification states about them. *)

From Stdlib Require Import ZArith Lia Ascii String.
From stdpp Require Import base option list strings gmap.

Local Open Scope string_scope.
Local Open Scope list_scope.

(** ** C strings

    A [const char *] is modelled by its content, the characters before the
    terminating NUL.  The helpers below are the libc / std::string calls the
    source makes, written as structural recursions. *)

Module CStr.

(** [strrchr s c]: offset of the last occurrence of [c], null when absent. *)
Fixpoint strrchr (s : string) (c : ascii) : option nat :=
  match s with
  | EmptyString => None
  | String a s' =>
      match strrchr s' c with
      | Some n => Some (S n)
      | None => if Ascii.eqb a c then Some 0 else None
      end
  end.

(** [strstr hay needle]: offset of the first occurrence of [needle]. *)
Fixpoint strstr (hay needle : string) : option nat :=
  if String.prefix needle hay then Some 0
  else match hay with
       | EmptyString => None
       | String _ hay' => S <$> strstr hay' needle
       end.

(** [std::string::find] is the same first-occurrence search
    ([None] is [std::string::npos]). *)
Definition find (s pat : string) : option nat := strstr s pat.

(** The first [n] characters ([memcpy] of a prefix, [substr(0, n)]). *)
Fixpoint take (n : nat) (s : string) : string :=
  match n, s with
  | S n', String a s' => String a (take n' s')
  | _, _ => EmptyString
  end.

(** The tail from offset [n] (pointer arithmetic [s + n], [substr(n)]). *)
Fixpoint drop (n : nat) (s : string) : string :=
  match n, s with
  | S n', String _ s' => drop n' s'
  | _, _ => s
  end.

(** No character of [s] is [c]. *)
Fixpoint lacks (c : ascii) (s : string) : bool :=
  match s with
  | EmptyString => true
  | String a s' => negb (Ascii.eqb a c) && lacks c s'
  end.

End CStr.

(** ** Error codes and the protocol enumeration *)

Inductive CHIP_ERROR :=
| CHIP_NO_ERROR
| CHIP_ERROR_INVALID_ARGUMENT
| CHIP_ERROR_INCORRECT_STATE
| CHIP_ERROR_NO_MEMORY
| CHIP_ERROR_UNKNOWN_RESOURCE_ID
| CHIP_ERROR_NOT_IMPLEMENTED
| CHIP_JNI_ERROR_EXCEPTION_THROWN
| CHIP_JNI_ERROR_NO_ENV.

Inductive DnssdServiceProtocol :=
| kDnssdProtocolUdp
| kDnssdProtocolTcp
| kDnssdProtocolUnknown.

#[global] Instance CHIP_ERROR_eq_dec : EqDecision CHIP_ERROR.
Proof. solve_decision. Defined.

#[global] Instance DnssdServiceProtocol_eq_dec : EqDecision DnssdServiceProtocol.
Proof. solve_decision. Defined.

(** ** Service-type codec *)

Definition kProtocolTcp : string := "._tcp".
Definition kProtocolUdp : string := "._udp".

Definition GetFullType (type : string) (protocol : DnssdServiceProtocol) : string :=
  type +:+ (if decide (protocol = kDnssdProtocolUdp) then kProtocolUdp else kProtocolTcp).

Definition subtypeDelimiter : string := "._sub.".

Definition GetFullTypeWithSubTypes (type : string) (protocol : DnssdServiceProtocol)
  : string :=
  let fullType := GetFullType type protocol in
  match CStr.find fullType subtypeDelimiter with
  | Some position =>
      CStr.drop (position + String.length subtypeDelimiter) fullType
        +:+ "," +:+ CStr.take position fullType
  | None => fullType
  end.

(** [extractProtocol<N>]: [N] is the size of the output array
    [outServiceName]; the result is the pair of out-parameters. *)
Definition extractProtocol (N : nat) (serviceType : string)
  : CHIP_ERROR + (string * DnssdServiceProtocol) :=
  match CStr.strrchr serviceType "." with
  | None => inl CHIP_ERROR_INVALID_ARGUMENT
  | Some lengthWithoutProtocol =>
      if negb (lengthWithoutProtocol + 1 <=? N)%nat then inl CHIP_ERROR_INVALID_ARGUMENT
      else
        let outServiceName := CStr.take lengthWithoutProtocol serviceType in
        let dotPos := CStr.drop lengthWithoutProtocol serviceType in
        if bool_decide (is_Some (CStr.strstr dotPos "._tcp")) then
          inr (outServiceName, kDnssdProtocolTcp)
        else if bool_decide (is_Some (CStr.strstr dotPos "._udp")) then
          inr (outServiceName, kDnssdProtocolUdp)
        else inl CHIP_ERROR_INVALID_ARGUMENT
  end.

(** ** Data model *)

(** [TextEntry]: a null pointer is [None].  [mData] holds [uint8_t] values. *)
Record TextEntry := {
  mKey : option string;
  mData : option (list Z);
  mDataSize : Z
}.

(** The value [memset] leaves in every slot of a fresh entries array. *)
Definition zeroTextEntry : TextEntry :=
  {| mKey := None; mData := None; mDataSize := 0 |}.

(** Heap blocks are named after the allocation site and the slot whose
    pointer field holds them: the allocator hands out distinct blocks, and
    the source never copies one of these pointers to a second slot. *)
Inductive Buffer :=
| BufEntries                    (* new (std::nothrow) TextEntry[size] *)
| BufKey (i : nat)              (* entries[i].mKey = strdup(...) *)
| BufData (i : nat)             (* new (std::nothrow) uint8_t[dataSize] *)
| BufServices                   (* new DnssdService[size] *)
| BufBrowseContext (addr : Z).  (* Platform::New<BrowseContext>(callback) *)

#[global] Instance Buffer_eq_dec : EqDecision Buffer.
Proof. solve_decision. Defined.

(** Calls into the Java backend ([env->CallVoidMethod] on the resolver or
    browser object).  The [UtfString] and [ByteArray] wrappers that turn the
    text entries of a publish into Java values are declared outside this
    file, so a publish call records what each wrapper was built from: the
    key pointer of every entry, and its data pointer with the size passed
    along ([None] for a null pointer). *)
Inductive JavaCall :=
| JRemoveServices
| JPublish (name hostName type : string) (port : Z)
    (keys : list (option string)) (datas : list (option (list Z) * Z))
    (subTypes : list string)
| JBrowse (type : string) (callback context : Z)
| JStopDiscover (callback : Z)
| JResolve (name type : string) (callback context : Z).

(** Which global references and method ids [InitializeWithObjects] managed
    to bind ([HasValidObjectRef()], resp. [!= nullptr]). *)
Record Binding := {
  sResolverObject : bool;
  sBrowserObject : bool;
  sMdnsCallbackObject : bool;
  sResolveMethod : bool;
  sBrowseMethod : bool;
  sStopBrowseMethod : bool;
  sGetTextEntryKeysMethod : bool;
  sGetTextEntryDataMethod : bool;
  sPublishMethod : bool;
  sRemoveServicesMethod : bool
}.

(** Modelled from the spec: [CanCastTo<uint16_t>] and [CanCastTo<uint32_t>]
    (lib/support/SafeInt.h, outside this file) tell whether a value of a
    wider integer type fits 16, resp. 32, unsigned bits. *)
Definition CanCastTo_uint16 (v : Z) : bool := (0 <=? v)%Z && (v <=? 65535)%Z.
Definition CanCastTo_uint32 (v : Z) : bool := (0 <=? v)%Z && (v <=? 4294967295)%Z.

(** [static_cast<uint8_t>] of a [jbyte]. *)
Definition jbyte_to_uint8 (b : Z) : Z := (b mod 256)%Z.

(** Modelled from the spec: the macro [VerifyOrReturnError(cond, err)]
    (lib/support/CodeUtils.h, outside this file) leaves the function with
    [err] when [cond] is false; [rest] is the code after it.  It also stands
    for [VerifyOrReturn(cond, action)], with the action's run as [err]. *)
Definition VerifyOrReturnError {A} (cond : bool) (err : A) (rest : A) : A :=
  if cond then rest else err.

Section Dnssd.

(** Types and helpers declared in headers outside this file:
    [Inet::IPAddress], [Inet::InterfaceId], [Inet::IPAddress::FromString],
    [Platform::CopyString] (first argument: the size of the destination
    array), the length limits of lib/dnssd, and the sizes of the [mName],
    [mHostName] and [mType] arrays of [DnssdService]. *)
Context {IPAddress InterfaceId : Type}.
Variable FromString : string -> option (IPAddress * InterfaceId).
Variable CopyString : nat -> string -> string.
Variable kInstanceNameMaxLength : nat.
Variable kDnssdTypeAndProtocolMaxSize : nat.
Variable kNameSize kHostNameSize kTypeSize : nat.

Record DnssdService := {
  mName : string;
  mHostName : string;
  mType : string;
  mProtocol : DnssdServiceProtocol;
  mPort : Z;
  mInterface : InterfaceId;
  mTextEntries : option (list TextEntry);
  mTextEntrySize : Z;
  mSubTypes : list string;
  mSubTypeSize : Z
}.

(** What an element of [new DnssdService[size]] holds before the browse
    loop writes its name, type and protocol. *)
Variable defaultService : DnssdService.

(** Observable steps of a run, in program order: the stack lock released
    and taken, a call into the backend, an allocation, a release, a callback
    invocation.  A callback event records the arguments as the callee sees
    them at that moment. *)
Inductive Event :=
| EvUnlockChipStack
| EvLockChipStack
| EvBackend (call : JavaCall)
| EvAlloc (b : Buffer)
| EvFree (b : Buffer)
| EvResolveCallback (callback context : Z) (service : option DnssdService)
    (addresses : list IPAddress) (error : CHIP_ERROR)
| EvBrowseCallback (callback context : Z) (services : option (list DnssdService))
    (size : Z) (finalBrowse : bool) (error : CHIP_ERROR).

(** Modelled from the spec: [DeviceLayer::StackUnlock] (declared outside
    this file) is the scoped-release helper: its constructor releases the
    stack lock and its destructor takes it again, around the enclosed
    code. *)
Definition StackUnlock (body : list Event) : list Event :=
  EvUnlockChipStack :: body ++ [EvLockChipStack].

(** Modelled from the spec: [DeviceLayer::StackLock] (declared outside this
    file) is the converse: the lock is taken for the enclosed code and
    released after it. *)
Definition StackLock (body : list Event) : list Event :=
  EvLockChipStack :: body ++ [EvUnlockChipStack].

(** *** Synchronous operations *)

Definition ChipDnssdRemoveServices (b : Binding) (exceptionThrown : bool)
  : CHIP_ERROR * list Event :=
  VerifyOrReturnError (sResolverObject b && sRemoveServicesMethod b)
    (CHIP_ERROR_INCORRECT_STATE, []) $
  let calls := StackUnlock [EvBackend JRemoveServices] in
  if exceptionThrown then (CHIP_JNI_ERROR_EXCEPTION_THROWN, calls)
  else (CHIP_NO_ERROR, calls).

(** The first loop of [ChipDnssdPublishService]: for every text entry the
    key handed to [UtfString] and the data pointer and size handed to
    [ByteArray], or the error of the size check that stops it. *)
Fixpoint publishTextEntries (entries : list TextEntry)
  : CHIP_ERROR + (list (option string) * list (option (list Z) * Z)) :=
  match entries with
  | [] => inr ([], [])
  | e :: rest =>
      if negb (CanCastTo_uint32 (mDataSize e)) then inl CHIP_ERROR_INVALID_ARGUMENT
      else
        match publishTextEntries rest with
        | inl err => inl err
        | inr (keys, datas) =>
            inr (mKey e :: keys, (mData e, mDataSize e) :: datas)
        end
  end.

Definition ChipDnssdPublishService (b : Binding) (exceptionThrown : bool)
    (service : option DnssdService) : CHIP_ERROR * list Event :=
  match service with
  | None => (CHIP_ERROR_INVALID_ARGUMENT, [])
  | Some service =>
      VerifyOrReturnError (sResolverObject b && sPublishMethod b)
        (CHIP_ERROR_INCORRECT_STATE, []) $
      VerifyOrReturnError (CanCastTo_uint32 (mTextEntrySize service))
        (CHIP_ERROR_INVALID_ARGUMENT, []) $
      VerifyOrReturnError (CanCastTo_uint32 (mSubTypeSize service))
        (CHIP_ERROR_INVALID_ARGUMENT, []) $
      let serviceType :=
        mType service +:+ "."
          +:+ (if decide (mProtocol service = kDnssdProtocolUdp) then "_udp" else "_tcp") in
      let textEntrySize := Z.to_nat (mTextEntrySize service) in
      match publishTextEntries (take textEntrySize (default [] (mTextEntries service))) with
      | inl err => (err, [])
      | inr (keys, datas) =>
          let subTypes := take (Z.to_nat (mSubTypeSize service)) (mSubTypes service) in
          let calls :=
            StackUnlock
              [EvBackend (JPublish (mName service) (mHostName service) serviceType
                            (mPort service) keys datas subTypes)] in
          if exceptionThrown then (CHIP_JNI_ERROR_EXCEPTION_THROWN, calls)
          else (CHIP_NO_ERROR, calls)
      end
  end.

(** The browse sessions: the live [BrowseContext] objects, by address, each
    holding the callback it was created with.  [envAvailable] says whether
    [GetEnvForCurrentThread] returns an environment, [newContext] is what
    [Platform::New] returns.  The last component is the value written to
    [*browseIdentifier], if any. *)
Definition ChipDnssdBrowse (b : Binding) (envAvailable exceptionThrown : bool)
    (newContext : option Z) (sessions : gmap Z Z)
    (type : option string) (protocol : DnssdServiceProtocol) (callback context : Z)
  : CHIP_ERROR * list Event * gmap Z Z * option Z :=
  match type with
  | None => (CHIP_ERROR_INVALID_ARGUMENT, [], sessions, None)
  | Some type =>
      VerifyOrReturnError (negb (bool_decide (callback = 0%Z)))
        (CHIP_ERROR_INVALID_ARGUMENT, [], sessions, None) $
      VerifyOrReturnError (sBrowserObject b && sBrowseMethod b)
        (CHIP_ERROR_INVALID_ARGUMENT, [], sessions, None) $
      VerifyOrReturnError (sMdnsCallbackObject b)
        (CHIP_ERROR_INCORRECT_STATE, [], sessions, None) $
      let serviceType := GetFullTypeWithSubTypes type protocol in
      VerifyOrReturnError envAvailable
        (CHIP_JNI_ERROR_NO_ENV, [], sessions, None) $
      let calls := [EvBackend (JBrowse serviceType callback context)] in
      if exceptionThrown then (CHIP_JNI_ERROR_EXCEPTION_THROWN, calls, sessions, None)
      else
        match newContext with
        | None => (CHIP_ERROR_NO_MEMORY, calls, sessions, None)
        | Some sdCtx =>
            (CHIP_NO_ERROR, calls ++ [EvAlloc (BufBrowseContext sdCtx)],
             <[sdCtx := callback]> sessions, Some sdCtx)
        end
  end.

(** [None]: the identifier is not the address of a live [BrowseContext], so
    reading [ctx->callback] is outside the contract of the function. *)
Definition ChipDnssdStopBrowse (b : Binding) (envAvailable exceptionThrown : bool)
    (sessions : gmap Z Z) (browseIdentifier : Z)
  : option (CHIP_ERROR * list Event * gmap Z Z) :=
  VerifyOrReturnError (negb (bool_decide (browseIdentifier = 0%Z)))
    (Some (CHIP_ERROR_INVALID_ARGUMENT, [], sessions)) $
  VerifyOrReturnError (sBrowserObject b && sStopBrowseMethod b)
    (Some (CHIP_ERROR_INVALID_ARGUMENT, [], sessions)) $
  VerifyOrReturnError envAvailable
    (Some (CHIP_JNI_ERROR_NO_ENV, [], sessions)) $
  match sessions !! browseIdentifier with
  | None => None
  | Some callback =>
      let calls :=
        [EvBackend (JStopDiscover callback);
         EvFree (BufBrowseContext browseIdentifier)] in
      Some (if exceptionThrown then CHIP_JNI_ERROR_EXCEPTION_THROWN else CHIP_NO_ERROR,
            calls, delete browseIdentifier sessions)
  end.

Definition ChipDnssdResolve (b : Binding) (exceptionThrown : bool)
    (service : option DnssdService) (callback context : Z)
  : CHIP_ERROR * list Event :=
  match service with
  | None => (CHIP_ERROR_INVALID_ARGUMENT, [])
  | Some service =>
      VerifyOrReturnError (negb (bool_decide (callback = 0%Z)))
        (CHIP_ERROR_INVALID_ARGUMENT, []) $
      VerifyOrReturnError (sResolverObject b && sResolveMethod b)
        (CHIP_ERROR_INCORRECT_STATE, []) $
      VerifyOrReturnError (sMdnsCallbackObject b)
        (CHIP_ERROR_INCORRECT_STATE, []) $
      let serviceType := GetFullType (mType service) (mProtocol service) in
      let calls :=
        StackUnlock
          [EvBackend (JResolve (mName service) serviceType callback context)] in
      if exceptionThrown then (CHIP_JNI_ERROR_EXCEPTION_THROWN, calls)
      else (CHIP_NO_ERROR, calls)
  end.

(** *** Result entry points *)

(** The [dispatch] closure of [HandleResolve]: takes the stack lock, calls
    the callback with a span of zero or one address, releases the lock. *)
Definition resolveDispatch (callbackHandle contextHandle : Z) (error : CHIP_ERROR)
    (service : option DnssdService) (address : option IPAddress) : list Event :=
  StackLock
    [EvResolveCallback callbackHandle contextHandle service (option_list address) error].

Definition setKey (key : string) (e : TextEntry) : TextEntry :=
  {| mKey := Some key; mData := mData e; mDataSize := mDataSize e |}.

Definition setData (data : option (list Z)) (dataSize : Z) (e : TextEntry) : TextEntry :=
  {| mKey := mKey e; mData := data; mDataSize := dataSize |}.

(** The Java TXT map as the two dispatcher calls expose it: the keys in the
    order [getTextEntryKeys] reports them, each with what
    [getTextEntryData] returns for it ([None] for a null array). *)
Definition TextEntryMap := list (string * option (list Z)).

(** The marshalling loop of [HandleResolve] from index [i] on, over the keys
    still to visit.  [allocOk] tells which [new (std::nothrow)] requests the
    allocator serves; [strdup] is taken to succeed, as the source uses its
    result unchecked.  The result holds the allocations made, the entries
    array and [service.mTextEntrySize] at the [exit] label. *)
Fixpoint fillTextEntries (allocOk : Buffer -> bool) (size : Z) (i : nat)
    (keys : TextEntryMap) (entries : list TextEntry) (textEntrySize : Z)
  : list Event * list TextEntry * Z :=
  match keys with
  | [] => ([], entries, textEntrySize)
  | (key, datas) :: rest =>
      let entries := alter (setKey key) i entries in
      match datas with
      | Some jnidata =>
          if allocOk (BufData i) then
            let data := jbyte_to_uint8 <$> jnidata in
            let entries := alter (setData (Some data) (Z.of_nat (length jnidata))) i entries in
            let '(evs, entries', n) :=
              fillTextEntries allocOk size (S i) rest entries size in
            (EvAlloc (BufKey i) :: EvAlloc (BufData i) :: evs, entries', n)
          else ([EvAlloc (BufKey i)], entries, textEntrySize)
      | None =>
          let entries := alter (setData None 0) i entries in
          let '(evs, entries', n) :=
            fillTextEntries allocOk size (S i) rest entries size in
          (EvAlloc (BufKey i) :: evs, entries', n)
      end
  end.

(** The [if (textEntries != nullptr)] block: allocations made,
    [service.mTextEntries] and [service.mTextEntrySize] at [exit]. *)
Definition marshalTextEntries (allocOk : Buffer -> bool) (textEntries : option TextEntryMap)
  : list Event * option (list TextEntry) * Z :=
  match textEntries with
  | None => ([], None, 0%Z)
  | Some keys =>
      let size := length keys in
      if allocOk BufEntries then
        let '(evs, entries, n) :=
          fillTextEntries allocOk (Z.of_nat size) 0 keys (replicate size zeroTextEntry) 0%Z in
        (EvAlloc BufEntries :: evs, Some entries, n)
      else ([], None, 0%Z)
  end.

(** [delete[] p]: nothing happens for a null pointer. *)
Definition deleteArray {A} (p : option A) (b : Buffer) : list Event :=
  match p with
  | Some _ => [EvFree b]
  | None => []
  end.

(** The release code after [dispatch]: slots [0 .. mTextEntrySize - 1],
    then the array.  (The array always has at least [mTextEntrySize]
    slots here.) *)
Definition releaseTextEntries (entries : option (list TextEntry)) (textEntrySize : Z)
  : list Event :=
  match entries with
  | None => []
  | Some entries =>
      concat (imap (fun i e => deleteArray (mKey e) (BufKey i)
                                 ++ deleteArray (mData e) (BufData i))
                   (take (Z.to_nat textEntrySize) entries))
        ++ [EvFree BufEntries]
  end.

Definition HandleResolve (allocOk : Buffer -> bool)
    (instanceName serviceType hostName : string) (address : option string) (port : Z)
    (textEntries : option TextEntryMap) (callbackHandle contextHandle : Z)
  : list Event :=
  VerifyOrReturnError (negb (bool_decide (callbackHandle = 0%Z))) [] $
  let dispatch := resolveDispatch callbackHandle contextHandle in
  match address with
  | None => dispatch CHIP_ERROR_UNKNOWN_RESOURCE_ID None None
  | Some jniAddress =>
      VerifyOrReturnError (negb (bool_decide (port = 0%Z)))
        (dispatch CHIP_ERROR_UNKNOWN_RESOURCE_ID None None) $
      VerifyOrReturnError (String.length instanceName <=? kInstanceNameMaxLength)%nat
        (dispatch CHIP_ERROR_INVALID_ARGUMENT None None) $
      VerifyOrReturnError (String.length serviceType <=? kDnssdTypeAndProtocolMaxSize)%nat
        (dispatch CHIP_ERROR_INVALID_ARGUMENT None None) $
      VerifyOrReturnError (CanCastTo_uint16 port)
        (dispatch CHIP_ERROR_INVALID_ARGUMENT None None) $
      match FromString jniAddress with
      | None => dispatch CHIP_ERROR_INVALID_ARGUMENT None None
      | Some (ipAddress, iface) =>
          match extractProtocol kTypeSize serviceType with
          | inl _ => dispatch CHIP_ERROR_INVALID_ARGUMENT None None
          | inr (type, protocol) =>
              let '(allocs, entries, textEntrySize) :=
                marshalTextEntries allocOk textEntries in
              let service :=
                {| mName := CopyString kNameSize instanceName;
                   mHostName := CopyString kHostNameSize hostName;
                   mType := type;
                   mProtocol := protocol;
                   mPort := port;
                   mInterface := iface;
                   mTextEntries := entries;
                   mTextEntrySize := textEntrySize;
                   mSubTypes := [];
                   mSubTypeSize := 0 |} in
              allocs
                ++ dispatch CHIP_NO_ERROR (Some service) (Some ipAddress)
                ++ releaseTextEntries entries textEntrySize
          end
      end
  end.

(** The [dispatch] closure of [HandleBrowse]; the final-browse flag is
    always [true]. *)
Definition browseDispatch (callbackHandle contextHandle : Z) (error : CHIP_ERROR)
    (service : option (list DnssdService)) (size : Z) : list Event :=
  StackLock [EvBrowseCallback callbackHandle contextHandle service size true error].

Definition setNameTypeProtocol (name type : string) (protocol : DnssdServiceProtocol)
    (s : DnssdService) : DnssdService :=
  {| mName := name; mHostName := mHostName s; mType := type; mProtocol := protocol;
     mPort := mPort s; mInterface := mInterface s;
     mTextEntries := mTextEntries s; mTextEntrySize := mTextEntrySize s;
     mSubTypes := mSubTypes s; mSubTypeSize := mSubTypeSize s |}.

(** The loop of [HandleBrowse] from index [i] on: the filled array, or the
    error of the check that left the function. *)
Fixpoint fillServices (serviceType : string) (i : nat) (instanceName : list string)
    (service : list DnssdService) : CHIP_ERROR + list DnssdService :=
  match instanceName with
  | [] => inr service
  | jniInstanceName :: rest =>
      if negb (String.length jniInstanceName <=? kInstanceNameMaxLength)%nat
      then inl CHIP_ERROR_INVALID_ARGUMENT
      else
        match extractProtocol kTypeSize serviceType with
        | inl _ => inl CHIP_ERROR_INVALID_ARGUMENT
        | inr (type, protocol) =>
            fillServices serviceType (S i) rest
              (alter (setNameTypeProtocol (CopyString kNameSize jniInstanceName)
                        type protocol) i service)
        end
  end.

Definition HandleBrowse (instanceName : list string) (serviceType : string)
    (callbackHandle contextHandle : Z) : list Event :=
  VerifyOrReturnError (negb (bool_decide (callbackHandle = 0%Z))) [] $
  let dispatch := browseDispatch callbackHandle contextHandle in
  let size := length instanceName in
  EvAlloc BufServices ::
  match fillServices serviceType 0 instanceName (replicate size defaultService) with
  | inl err => dispatch err None 0%Z
  | inr service =>
      dispatch CHIP_NO_ERROR (Some service) (Z.of_nat size) ++ [EvFree BufServices]
  end.

(** *** Reading a run *)

(** The callback invocations of a resolve completion, in order. *)
Definition resolveCallbacks (run : list Event)
  : list (Z * Z * option DnssdService * list IPAddress * CHIP_ERROR) :=
  omap (fun ev =>
          match ev with
          | EvResolveCallback cb ctx svc addrs err => Some (cb, ctx, svc, addrs, err)
          | _ => None
          end) run.

(** The callback invocations of a browse delivery, in order. *)
Definition browseCallbacks (run : list Event)
  : list (Z * Z * option (list DnssdService) * Z * bool * CHIP_ERROR) :=
  omap (fun ev =>
          match ev with
          | EvBrowseCallback cb ctx svcs size final err =>
              Some (cb, ctx, svcs, size, final, err)
          | _ => None
          end) run.

Definition backendCalls (run : list Event) : list JavaCall :=
  omap (fun ev => match ev with EvBackend c => Some c | _ => None end) run.

Definition allocated (run : list Event) : list Buffer :=
  omap (fun ev => match ev with EvAlloc b => Some b | _ => None end) run.

Definition released (run : list Event) : list Buffer :=
  omap (fun ev => match ev with EvFree b => Some b | _ => None end) run.

(** The blocks allocated before the resolve callback runs. *)
Fixpoint allocatedBeforeCallback (run : list Event) : list Buffer :=
  match run with
  | [] => []
  | EvResolveCallback _ _ _ _ _ :: _ => []
  | EvAlloc b :: rest => b :: allocatedBeforeCallback rest
  | _ :: rest => allocatedBeforeCallback rest
  end.

(** The blocks a run allocated and never released. *)
Definition leaked (run : list Event) : list Buffer :=
  filter (fun b => b ∉ released run) (allocated run).

(** Events of the allocator only. *)
Definition memoryOnly (ev : Event) : Prop :=
  match ev with
  | EvAlloc _ | EvFree _ => True
  | _ => False
  end.

Definition isKey (b : Buffer) : bool := match b with BufKey _ => true | _ => false end.
Definition isData (b : Buffer) : bool := match b with BufData _ => true | _ => false end.

(** Every backend call of the run happens while the stack lock is
    released; [held] is the state of the lock when the run starts. *)
Fixpoint backendOutsideLock (held : bool) (run : list Event) : bool :=
  match run with
  | [] => true
  | EvUnlockChipStack :: rest => backendOutsideLock false rest
  | EvLockChipStack :: rest => backendOutsideLock true rest
  | EvBackend _ :: rest => negb held && backendOutsideLock held rest
  | _ :: rest => backendOutsideLock held rest
  end.

(** The TXT list a callback can read from a record: the first
    [mTextEntrySize] slots of [mTextEntries]. *)
Definition textEntriesOf (service : DnssdService) : list TextEntry :=
  take (Z.to_nat (mTextEntrySize service)) (default [] (mTextEntries service)).

(** The slot a complete pass of the loop builds for one key. *)
Definition builtEntry (kv : string * option (list Z)) : TextEntry :=
  {| mKey := Some kv.1;
     mData := fmap (M := list) jbyte_to_uint8 <$> kv.2;
     mDataSize := from_option (fun d => Z.of_nat (length d)) 0%Z kv.2 |}.

(** An entries array whose construction stopped at slot [j]: the slots
    before [j] are complete, slot [j] has its key and nothing else, the
    slots after it are still zero. *)
Fixpoint truncatedAt (j : nat) (keys : TextEntryMap) : list TextEntry :=
  match keys with
  | [] => []
  | kv :: rest =>
      match j with
      | 0 => setKey kv.1 zeroTextEntry :: replicate (length rest) zeroTextEntry
      | S j' => builtEntry kv :: truncatedAt j' rest
      end
  end.

(** The position in [keys] of the first key with data whose buffer the
    allocator refuses, [i] being the slot of the first key of [keys]. *)
Fixpoint firstFailure (allocOk : Buffer -> bool) (i : nat) (keys : TextEntryMap)
  : option nat :=
  match keys with
  | [] => None
  | (_, datas) :: rest =>
      if bool_decide (is_Some datas) && negb (allocOk (BufData i)) then Some 0
      else S <$> firstFailure allocOk (S i) rest
  end.

(** The blocks that complete passes over [keys] allocate, from slot [i]
    on: a key buffer per key, a data buffer per key that has data. *)
Fixpoint blocksFor (i : nat) (keys : TextEntryMap) : list Buffer :=
  match keys with
  | [] => []
  | (_, datas) :: rest =>
      BufKey i
        :: match datas with Some _ => [BufData i] | None => [] end
        ++ blocksFor (S i) rest
  end.

Definition allocationsFor (i : nat) (keys : TextEntryMap) : list Event :=
  EvAlloc <$> blocksFor i keys.

(** The blocks the release loop frees for the slots of [entries], [i] being
    the index of the first of them. *)
Fixpoint releasedSlots (i : nat) (entries : list TextEntry) : list Buffer :=
  match entries with
  | [] => []
  | e :: rest =>
      match mKey e with Some _ => [BufKey i] | None => [] end
        ++ match mData e with Some _ => [BufData i] | None => [] end
        ++ releasedSlots (S i) rest
  end.

(** The slot index a key or data block belongs to. *)
Definition slotOf (b : Buffer) : option nat :=
  match b with
  | BufKey i | BufData i => Some i
  | _ => None
  end.

(** A resolve result that passes every check made before the TXT entries
    are looked at. *)
Definition passesValidation (instanceName serviceType : string)
    (address : option string) (port : Z) : Prop :=
  port <> 0%Z
  /\ String.length instanceName <= kInstanceNameMaxLength
  /\ String.length serviceType <= kDnssdTypeAndProtocolMaxSize
  /\ CanCastTo_uint16 port = true
  /\ (exists jniAddress, address = Some jniAddress /\ is_Some (FromString jniAddress))
  /\ (exists decoded, extractProtocol kTypeSize serviceType = inr decoded).

End Dnssd.

(** ** Binding the backend *)

(** What the JNI calls of [InitializeWithObjects] answer: whether each
    [JniGlobalReference::Init] returns [CHIP_NO_ERROR], whether
    [GetObjectClass] finds the resolver and browser classes, and whether
    each [GetMethodID] finds its method. *)
Record JniLookups := {
  resolverInit : bool;
  browserInit : bool;
  mdnsCallbackInit : bool;
  resolverClassFound : bool;
  browserClassFound : bool;
  foundGetTextEntryKeys : bool;
  foundGetTextEntryData : bool;
  foundResolve : bool;
  foundBrowse : bool;
  foundStopDiscover : bool;
  foundPublish : bool;
  foundRemoveServices : bool
}.

(** The statics of the anonymous namespace as the file initialises them:
    default-constructed references, null method ids. *)
Definition initialBinding : Binding :=
  {| sResolverObject := false; sBrowserObject := false; sMdnsCallbackObject := false;
     sResolveMethod := false; sBrowseMethod := false; sStopBrowseMethod := false;
     sGetTextEntryKeysMethod := false; sGetTextEntryDataMethod := false;
     sPublishMethod := false; sRemoveServicesMethod := false |}.

(** Modelled from the spec: [JniGlobalReference::Init] (declared outside
    this file) binds a capability: the reference is valid afterwards exactly
    when [Init] returns [CHIP_NO_ERROR].  [InitializeWithObjects] is modelled
    for its first call, on the initial statics; the result is the statics it
    leaves. *)
Definition InitializeWithObjects (jni : JniLookups) : Binding :=
  let withObjects (resolver browser callback : bool) : Binding :=
    {| sResolverObject := resolver; sBrowserObject := browser;
       sMdnsCallbackObject := callback;
       sResolveMethod := false; sBrowseMethod := false; sStopBrowseMethod := false;
       sGetTextEntryKeysMethod := false; sGetTextEntryDataMethod := false;
       sPublishMethod := false; sRemoveServicesMethod := false |} in
  VerifyOrReturnError (resolverInit jni) (withObjects false false false) $
  VerifyOrReturnError (browserInit jni) (withObjects true false false) $
  VerifyOrReturnError (mdnsCallbackInit jni) (withObjects true true false) $
  VerifyOrReturnError (browserClassFound jni) (withObjects true true true) $
  VerifyOrReturnError (resolverClassFound jni) (withObjects true true true) $
  {| sResolverObject := true; sBrowserObject := true; sMdnsCallbackObject := true;
     sGetTextEntryKeysMethod := foundGetTextEntryKeys jni;
     sGetTextEntryDataMethod := foundGetTextEntryData jni;
     sResolveMethod := foundResolve jni;
     sBrowseMethod := foundBrowse jni;
     sStopBrowseMethod := foundStopDiscover jni;
     sPublishMethod := foundPublish jni;
     sRemoveServicesMethod := foundRemoveServices jni |}.

(** ** The stack lock along a run *)

Section Locking.
Context {IPAddress InterfaceId : Type}.

(** The state of the stack lock at the end of a run; [held] is its state at
    the start. *)
Fixpoint lockAfter (held : bool) (run : list (@Event IPAddress InterfaceId)) : bool :=
  match run with
  | [] => held
  | EvUnlockChipStack :: rest => lockAfter false rest
  | EvLockChipStack :: rest => lockAfter true rest
  | _ :: rest => lockAfter held rest
  end.

(** Every callback of the run is invoked while the stack lock is held. *)
Fixpoint callbacksUnderLock (held : bool) (run : list (@Event IPAddress InterfaceId))
  : bool :=
  match run with
  | [] => true
  | EvUnlockChipStack :: rest => callbacksUnderLock false rest
  | EvLockChipStack :: rest => callbacksUnderLock true rest
  | EvResolveCallback _ _ _ _ _ :: rest => held && callbacksUnderLock held rest
  | EvBrowseCallback _ _ _ _ _ _ :: rest => held && callbacksUnderLock held rest
  | _ :: rest => callbacksUnderLock held rest
  end.

End Locking.

(** ** A concrete setting

    Values for the parameters above, for the runs that are evaluated on
    concrete inputs: addresses are kept as their text, interfaces as an
    index, [CopyString] truncates to the destination array less its
    terminator, and the limits have the magnitudes of lib/dnssd. *)

Module Sample.

Definition FromString (s : string) : option (string * Z) :=
  if bool_decide (s = "") then None else Some (s, 0%Z).

Definition CopyString (n : nat) (s : string) : string := CStr.take (n - 1) s.

Definition kInstanceNameMaxLength : nat := 33.
Definition kDnssdTypeAndProtocolMaxSize : nat := 36.
Definition kNameSize : nat := 34.
Definition kHostNameSize : nat := 41.
Definition kTypeSize : nat := 32.

Definition defaultService : @DnssdService Z :=
  {| mName := ""; mHostName := ""; mType := ""; mProtocol := kDnssdProtocolUnknown;
     mPort := 0; mInterface := 0%Z; mTextEntries := None; mTextEntrySize := 0;
     mSubTypes := []; mSubTypeSize := 0 |}.

Definition Ev : Type := @Event string Z.

Definition HandleResolve : (Buffer -> bool) -> string -> string -> string ->
    option string -> Z -> option TextEntryMap -> Z -> Z -> list Ev :=
  HandleResolve FromString CopyString kInstanceNameMaxLength
    kDnssdTypeAndProtocolMaxSize kNameSize kHostNameSize kTypeSize.

Definition HandleBrowse : list string -> string -> Z -> Z -> list Ev :=
  HandleBrowse CopyString kInstanceNameMaxLength kNameSize kTypeSize defaultService.

Definition passesValidation : string -> string -> option string -> Z -> Prop :=
  passesValidation FromString kInstanceNameMaxLength kDnssdTypeAndProtocolMaxSize
    kTypeSize.

(** Everything bound, and nothing bound. *)
Definition bound : Binding :=
  {| sResolverObject := true; sBrowserObject := true; sMdnsCallbackObject := true;
     sResolveMethod := true; sBrowseMethod := true; sStopBrowseMethod := true;
     sGetTextEntryKeysMethod := true; sGetTextEntryDataMethod := true;
     sPublishMethod := true; sRemoveServicesMethod := true |}.

Definition unbound : Binding :=
  {| sResolverObject := false; sBrowserObject := false; sMdnsCallbackObject := false;
     sResolveMethod := false; sBrowseMethod := false; sStopBrowseMethod := false;
     sGetTextEntryKeysMethod := false; sGetTextEntryDataMethod := false;
     sPublishMethod := false; sRemoveServicesMethod := false |}.

(** An allocator that serves every request but the one for [b]. *)
Definition refuse (b : Buffer) : Buffer -> bool := fun b' => negb (bool_decide (b' = b)).

(** A TXT map of three keys; the second value has a byte above 127. *)
Definition txt : TextEntryMap :=
  [("D", Some [56; 52; 48]%Z); ("CM", Some [(-1)%Z]); ("T", None)].

(** An instance name one character over the limit. *)
Definition longName : string := "0123456789ABCDEF-0123456789ABCDEFx".

End Sample.

(** ** More concrete inputs *)

Module SampleMore.

(** A record to publish: two text entries, the second without data, and one
    subtype. *)
Definition published : @DnssdService Z :=
  {| mName := "node-1"; mHostName := "host"; mType := "_matter";
     mProtocol := kDnssdProtocolTcp; mPort := 5540; mInterface := 0%Z;
     mTextEntries :=
       Some [ {| mKey := Some "D"; mData := Some [56; 52; 48]%Z; mDataSize := 3 |};
              {| mKey := Some "T"; mData := None; mDataSize := 0 |} ];
     mTextEntrySize := 2;
     mSubTypes := ["_L840"]; mSubTypeSize := 1 |}.

(** The same record with a subtype count of 2^32. *)
Definition oversized : @DnssdService Z :=
  {| mName := "node-1"; mHostName := "host"; mType := "_matter";
     mProtocol := kDnssdProtocolTcp; mPort := 5540; mInterface := 0%Z;
     mTextEntries := None; mTextEntrySize := 0;
     mSubTypes := ["_L840"]; mSubTypeSize := 4294967296 |}.

(** Every JNI lookup succeeds. *)
Definition allFound : JniLookups :=
  {| resolverInit := true; browserInit := true; mdnsCallbackInit := true;
     resolverClassFound := true; browserClassFound := true;
     foundGetTextEntryKeys := true; foundGetTextEntryData := true;
     foundResolve := true; foundBrowse := true; foundStopDiscover := true;
     foundPublish := true; foundRemoveServices := true |}.

(** The callback object fails to initialise; every method exists. *)
Definition callbackObjectFails : JniLookups :=
  {| resolverInit := true; browserInit := true; mdnsCallbackInit := false;
     resolverClassFound := true; browserClassFound := true;
     foundGetTextEntryKeys := true; foundGetTextEntryData := true;
     foundResolve := true; foundBrowse := true; foundStopDiscover := true;
     foundPublish := true; foundRemoveServices := true |}.

End SampleMore.

(** * Properties *)

#[local] Arguments String.append : simpl nomatch.

(** ** The C-string helpers *)

Module CStrFacts.
Import CStr.

Lemma length_app (a b : string) :
  String.length (a +:+ b) = String.length a + String.length b.
Proof. induction a as [|c a IH]; simpl; [done | by rewrite IH]. Qed.

Lemma take_app (a b : string) : take (String.length a) (a +:+ b) = a.
Proof. induction a as [|c a IH]; simpl; [by destruct b | by rewrite IH]. Qed.

Lemma drop_app (a b : string) : drop (String.length a) (a +:+ b) = b.
Proof. induction a as [|c a IH]; simpl; [by destruct b | done]. Qed.

Lemma drop_add (n m : nat) (s : string) : drop (n + m) s = drop m (drop n s).
Proof.
  revert s; induction n as [|n IH]; intros s; simpl; [done|].
  destruct s as [|c s]; [by destruct m | apply IH].
Qed.

Lemma take_drop (n : nat) (s : string) : take n s +:+ drop n s = s.
Proof.
  revert s; induction n as [|n IH]; intros [|c s]; simpl; try done.
  f_equal. apply IH.
Qed.

Lemma take_length_le (n : nat) (s : string) :
  n <= String.length s -> String.length (take n s) = n.
Proof.
  revert s; induction n as [|n IH]; intros [|c s]; simpl; try lia.
  intros Hle. rewrite IH; lia.
Qed.

Lemma app_assoc (a b c : string) : (a +:+ b) +:+ c = a +:+ (b +:+ c).
Proof. induction a as [|x a IH]; simpl; [done | by rewrite IH]. Qed.

Lemma app_inv_head (a b c : string) : a +:+ b = a +:+ c -> b = c.
Proof. induction a as [|x a IH]; simpl; [done | intros [= H]; auto]. Qed.

(** *** [strrchr] *)

Lemma strrchr_lacks (c : ascii) (s : string) :
  strrchr s c = None <-> lacks c s = true.
Proof.
  induction s as [|a s IH]; simpl; [done|].
  destruct (strrchr s c) as [n|].
  - split; [done|]. intros [_ H]%andb_prop. by apply IH in H.
  - destruct (Ascii.eqb a c); simpl; [done|]. split; [intros _; by apply IH | done].
Qed.

Lemma strrchr_bound (c : ascii) (s : string) (p : nat) :
  strrchr s c = Some p -> p < String.length s.
Proof.
  revert p; induction s as [|a s IH]; simpl; intros p; [done|].
  destruct (strrchr s c) as [n|].
  - intros [= <-]. specialize (IH n eq_refl). lia.
  - destruct (Ascii.eqb a c); [intros [= <-]; lia | done].
Qed.

(** The last occurrence splits the string into a base, the character, and a
    rest without that character. *)
Lemma strrchr_split (c : ascii) (s : string) (p : nat) :
  strrchr s c = Some p ->
  exists rest, drop p s = String c rest /\ lacks c rest = true.
Proof.
  revert p; induction s as [|a s IH]; simpl; intros p; [done|].
  destruct (strrchr s c) as [n|] eqn:E.
  - intros [= <-]. simpl. by apply IH.
  - destruct (Ascii.eqb a c) eqn:Ea; [|done]. intros [= <-]. simpl.
    apply Ascii.eqb_eq in Ea as ->. exists s. split; [done|].
    by apply strrchr_lacks.
Qed.

Lemma strrchr_app (c : ascii) (base rest : string) :
  lacks c rest = true ->
  strrchr (base +:+ String c rest) c = Some (String.length base).
Proof.
  intros Hrest. induction base as [|a base IH]; simpl.
  - apply strrchr_lacks in Hrest as ->. by rewrite Ascii.eqb_refl.
  - by rewrite IH.
Qed.

(** *** [prefix] and [strstr] *)

Lemma prefix_cons (a b : ascii) (n h : string) :
  String.prefix (String a n) (String b h)
  = if ascii_dec a b then String.prefix n h else false.
Proof. done. Qed.

Lemma prefix_length (n h : string) :
  String.prefix n h = true -> String.length n <= String.length h.
Proof.
  revert n; induction h as [|b h IH]; intros [|a n]; simpl; try done; try lia.
  destruct (ascii_dec a b); [|done]. intros H%IH. lia.
Qed.

Lemma prefix_app (n h t : string) :
  String.length n <= String.length h ->
  String.prefix n (h +:+ t) = String.prefix n h.
Proof.
  revert n; induction h as [|b h IH]; intros [|a n]; simpl; try done; try lia.
  - by destruct t.
  - intros Hle. destruct (ascii_dec a b); [apply IH; lia | done].
Qed.

Lemma strstr_nil (n : string) :
  strstr "" n = if String.prefix n "" then Some 0 else None.
Proof. done. Qed.

Lemma strstr_cons (b : ascii) (h n : string) :
  strstr (String b h) n
  = if String.prefix n (String b h) then Some 0 else S <$> strstr h n.
Proof. done. Qed.

Lemma strstr_bound (h n : string) (p : nat) :
  strstr h n = Some p -> p + String.length n <= String.length h.
Proof.
  revert p; induction h as [|b h IH]; intros p.
  - rewrite strstr_nil. destruct n; simpl; [intros [= <-]; lia | done].
  - rewrite strstr_cons. destruct (String.prefix n (String b h)) eqn:E.
    + intros [= <-]. apply prefix_length in E. simpl in *; lia.
    + destruct (strstr h n) as [q|]; [|done]. intros [= <-].
      specialize (IH q eq_refl). simpl; lia.
Qed.

(** A first occurrence stays the first one when the text is extended. *)
Lemma strstr_app (h t n : string) (p : nat) :
  strstr h n = Some p -> strstr (h +:+ t) n = Some p.
Proof.
  revert p; induction h as [|b h IH]; intros p.
  - rewrite strstr_nil. destruct n; [|done]. intros [= <-]. by destruct t.
  - intros H. pose proof (strstr_bound _ _ _ H) as Hb.
    change (String b h +:+ t) with (String b (h +:+ t)).
    rewrite strstr_cons in H |- *.
    change (String b (h +:+ t)) with (String b h +:+ t).
    destruct (String.prefix n (String b h)) eqn:E.
    + rewrite prefix_app, E; [done|]. by apply prefix_length.
    + destruct (strstr h n) as [q|] eqn:Eq; [|done].
      injection H as <-. apply strstr_bound in Eq.
      rewrite prefix_app, E by (simpl; lia).
      by rewrite (IH q eq_refl).
Qed.

(** A needle that starts with [c] does not occur in a text without [c]. *)
Lemma strstr_lacks (c : ascii) (h n : string) :
  lacks c h = true -> strstr h (String c n) = None.
Proof.
  induction h as [|b h IH]; [done|].
  rewrite strstr_cons, prefix_cons. simpl.
  intros [Hb Hh]%andb_prop. destruct (ascii_dec c b) as [->|_].
  - by rewrite Ascii.eqb_refl in Hb.
  - by rewrite IH.
Qed.

(** At the last [c], a needle starting with [c] is found exactly when it is
    a prefix there. *)
Lemma strstr_at_last (c : ascii) (rest n : string) :
  lacks c rest = true ->
  is_Some (strstr (String c rest) (String c n)) <-> String.prefix n rest = true.
Proof.
  intros Hrest. rewrite strstr_cons, prefix_cons.
  destruct (ascii_dec c c) as [_|]; [|done].
  destruct (String.prefix n rest).
  - split; [done | by eexists].
  - rewrite strstr_lacks by done. split; [by intros [? [=]] | done].
Qed.

End CStrFacts.

(** ** Service-type codec *)

Section Codec.
Import CStr CStrFacts.

(** [extractProtocol] on a string whose last dot is known. *)
Lemma extractProtocol_split (N : nat) (base rest : string) :
  lacks "." rest = true ->
  extractProtocol N (base +:+ String "." rest)
  = if (String.length base + 1 <=? N)%nat then
      if String.prefix "_tcp" rest then inr (base, kDnssdProtocolTcp)
      else if String.prefix "_udp" rest then inr (base, kDnssdProtocolUdp)
      else inl CHIP_ERROR_INVALID_ARGUMENT
    else inl CHIP_ERROR_INVALID_ARGUMENT.
Proof.
  intros Hrest. unfold extractProtocol.
  rewrite strrchr_app by done.
  destruct (String.length base + 1 <=? N)%nat; simpl; [|done].
  rewrite take_app, drop_app.
  pose proof (strstr_at_last "." rest "_tcp" Hrest) as Ht.
  pose proof (strstr_at_last "." rest "_udp" Hrest) as Hu.
  destruct (String.prefix "_tcp" rest).
  - rewrite bool_decide_eq_true_2; [done | by apply Ht].
  - rewrite bool_decide_eq_false_2; [|intros H%Ht; done].
    destruct (String.prefix "_udp" rest).
    + rewrite bool_decide_eq_true_2; [done | by apply Hu].
    + rewrite bool_decide_eq_false_2; [done | intros H%Hu; done].
Qed.

(** Every string with a dot has the shape [extractProtocol_split] treats. *)
Lemma last_dot_shape (s : string) (p : nat) :
  strrchr s "." = Some p ->
  exists rest, s = take p s +:+ String "." rest /\ lacks "." rest = true
               /\ String.length (take p s) = p.
Proof.
  intros H. destruct (strrchr_split _ _ _ H) as (rest & Hd & Hl).
  exists rest. split_and!; [|done|].
  - by rewrite <- Hd, take_drop.
  - apply take_length_le. apply strrchr_bound in H. lia.
Qed.

Lemma extractProtocol_error (N : nat) (s : string) (e : CHIP_ERROR) :
  extractProtocol N s = inl e -> e = CHIP_ERROR_INVALID_ARGUMENT.
Proof.
  unfold extractProtocol. repeat case_match; congruence.
Qed.

Lemma tcp_not_udp (rest : string) :
  String.prefix "_tcp" rest = true -> String.prefix "_udp" rest = true -> False.
Proof.
  destruct rest as [|a [|b rest]]; [done| |]; rewrite !prefix_cons;
    (destruct (ascii_dec "_" a); [|done]); [done|].
  destruct (ascii_dec "t" b) as [<-|]; [|done]. by destruct (ascii_dec "u" "t").
Qed.

(** C2: for every type and every protocol in {tcp, udp}, when the type fits
    the decoder's output buffer (its length plus the terminator is at most
    [N]), decoding the encoded full type gives back the type and the
    protocol. *)
Theorem extractProtocol_GetFullType (N : nat) (type : string)
    (protocol : DnssdServiceProtocol) :
  protocol = kDnssdProtocolTcp \/ protocol = kDnssdProtocolUdp ->
  String.length type + 1 <= N ->
  extractProtocol N (GetFullType type protocol) = inr (type, protocol).
Proof.
  intros Hp Hfit.
  assert (Nat.leb (String.length type + 1) N = true) as Hb by by apply Nat.leb_le.
  destruct Hp as [-> | ->].
  - change (GetFullType type kDnssdProtocolTcp) with (type +:+ String "." "_tcp").
    rewrite extractProtocol_split by done. by rewrite Hb.
  - change (GetFullType type kDnssdProtocolUdp) with (type +:+ String "." "_udp").
    rewrite extractProtocol_split by done. by rewrite Hb.
Qed.

(** C6 (amended): decoding splits the wire type at its last dot.  It
    succeeds exactly when there is a last dot, the base name before it fits
    the output buffer, and the text after it begins with [_tcp] (protocol
    tcp) or with [_udp] (protocol udp); every failure is InvalidArgument, as
    for ["_matter._xyz"] and ["_matter"]. *)
Theorem extractProtocol_accepts (N : nat) (s : string) :
  (forall base protocol,
      extractProtocol N s = inr (base, protocol) <->
      exists rest,
        s = base +:+ String "." rest /\ lacks "." rest = true
        /\ String.length base + 1 <= N
        /\ ((protocol = kDnssdProtocolTcp /\ String.prefix "_tcp" rest = true)
            \/ (protocol = kDnssdProtocolUdp /\ String.prefix "_udp" rest = true)))
  /\ (forall e, extractProtocol N s = inl e -> e = CHIP_ERROR_INVALID_ARGUMENT)
  /\ extractProtocol N "_matter._xyz" = inl CHIP_ERROR_INVALID_ARGUMENT
  /\ extractProtocol N "_matter" = inl CHIP_ERROR_INVALID_ARGUMENT.
Proof.
  split_and!.
  - intros base protocol. split.
    + intros H. destruct (strrchr s ".") as [p|] eqn:Ep.
      2:{ unfold extractProtocol in H. by rewrite Ep in H. }
      destruct (last_dot_shape _ _ Ep) as (rest & Hs & Hl & Hlen).
      rewrite Hs, extractProtocol_split in H by done.
      rewrite Hlen in H.
      destruct (p + 1 <=? N)%nat eqn:Hfit; [|done].
      apply Nat.leb_le in Hfit.
      exists rest.
      destruct (String.prefix "_tcp" rest) eqn:Et.
      { injection H as <- <-. rewrite Hlen. split_and!; auto. }
      destruct (String.prefix "_udp" rest) eqn:Eu; [|done].
      injection H as <- <-. rewrite Hlen. split_and!; auto.
    + intros (rest & -> & Hl & Hfit & Hp).
      rewrite extractProtocol_split by done.
      apply Nat.leb_le in Hfit as ->.
      destruct Hp as [[-> Ht] | [-> Hu]].
      * by rewrite Ht.
      * destruct (String.prefix "_tcp" rest) eqn:Et; [|by rewrite Hu].
        by destruct (tcp_not_udp rest).
  - apply extractProtocol_error.
  - change "_matter._xyz" with ("_matter" +:+ String "." "_xyz").
    rewrite extractProtocol_split by done. by case_match.
  - done.
Qed.

(** A found needle splits the text: what precedes it, the needle, what
    follows it; and it is found nowhere before. *)
Lemma prefix_split (n s : string) :
  String.prefix n s = true -> s = n +:+ drop (String.length n) s.
Proof.
  revert n; induction s as [|b s IH]; intros [|a n]; simpl; try done.
  destruct (ascii_dec a b) as [->|]; [|done]. intros H. f_equal. by apply IH.
Qed.

Lemma strstr_found (h n : string) (p : nat) :
  strstr h n = Some p ->
  h = take p h +:+ n +:+ drop (p + String.length n) h
  /\ String.length (take p h) = p
  /\ forall q, q < p -> String.prefix n (drop q h) = false.
Proof.
  revert p; induction h as [|b h IH]; intros p.
  - rewrite strstr_nil. destruct n; [|done]. intros [= <-].
    split_and!; [done | done | intros; lia].
  - rewrite strstr_cons. destruct (String.prefix n (String b h)) eqn:E.
    + intros [= <-]. simpl. split_and!; [by apply prefix_split | done | intros; lia].
    + destruct (strstr h n) as [q|] eqn:Eq; [|done]. intros [= <-].
      destruct (IH q eq_refl) as (Hsplit & Hlen & Hfirst).
      split_and!.
      * simpl. f_equal. exact Hsplit.
      * simpl. by rewrite Hlen.
      * intros [|q'] Hq; simpl; [done|]. apply Hfirst. lia.
Qed.

(** C3 (amended): the protocol suffix is appended first.  When the
    resulting full type holds a [._sub.] marker, its first occurrence splits
    it into the text [a] before the marker and the text [c] after it
    (protocol suffix included), and the result is [c], a comma, then [a];
    this also happens for a type that only ends in [._sub], as ["x._sub"],
    which gives ["_tcp,x"].  In particular, when the first marker of the
    type itself separates [a] from [b], the result is [b], the protocol
    suffix, a comma, then [a].  When the full type holds no marker, the
    result is the full type.  ["_matter._sub.foo"] with tcp gives
    ["foo._tcp,_matter"], and ["_matter"] with tcp gives ["_matter._tcp"]. *)
Theorem GetFullTypeWithSubTypes_reorders :
  (forall (type : string) (protocol : DnssdServiceProtocol) (a c : string),
      GetFullType type protocol = a +:+ subtypeDelimiter +:+ c ->
      find (GetFullType type protocol) subtypeDelimiter = Some (String.length a) ->
      GetFullTypeWithSubTypes type protocol = c +:+ "," +:+ a)
  /\ (forall (type : string) (protocol : DnssdServiceProtocol) (p : nat),
         find (GetFullType type protocol) subtypeDelimiter = Some p ->
         exists a c,
           GetFullType type protocol = a +:+ subtypeDelimiter +:+ c
           /\ String.length a = p
           /\ (forall q, q < p ->
                  String.prefix subtypeDelimiter (drop q (GetFullType type protocol))
                  = false)
           /\ GetFullTypeWithSubTypes type protocol = c +:+ "," +:+ a)
  /\ (forall (a b : string) (protocol : DnssdServiceProtocol),
         find (a +:+ subtypeDelimiter +:+ b) subtypeDelimiter = Some (String.length a) ->
         GetFullTypeWithSubTypes (a +:+ subtypeDelimiter +:+ b) protocol
         = GetFullType b protocol +:+ "," +:+ a)
  /\ (forall (type : string) (protocol : DnssdServiceProtocol),
         find (GetFullType type protocol) subtypeDelimiter = None ->
         GetFullTypeWithSubTypes type protocol = GetFullType type protocol)
  /\ GetFullTypeWithSubTypes "_matter._sub.foo" kDnssdProtocolTcp = "foo._tcp,_matter"
  /\ GetFullTypeWithSubTypes "x._sub" kDnssdProtocolTcp = "_tcp,x"
  /\ GetFullTypeWithSubTypes "_matter" kDnssdProtocolTcp = "_matter._tcp".
Proof.
  assert (forall (type : string) (protocol : DnssdServiceProtocol) (a c : string),
      GetFullType type protocol = a +:+ subtypeDelimiter +:+ c ->
      find (GetFullType type protocol) subtypeDelimiter = Some (String.length a) ->
      GetFullTypeWithSubTypes type protocol = c +:+ "," +:+ a) as Hrule.
  { intros type protocol a c Hfull Hfirst. unfold GetFullTypeWithSubTypes.
    rewrite Hfirst, Hfull.
    by rewrite take_app, drop_add, !drop_app. }
  split_and!; [exact Hrule| | | |done|done|done].
  - intros type protocol p Hfound.
    destruct (strstr_found _ _ _ Hfound) as (Hsplit & Hlen & Hfirst).
    exists (take p (GetFullType type protocol)),
      (drop (p + String.length subtypeDelimiter) (GetFullType type protocol)).
    split_and!; [exact Hsplit | exact Hlen | exact Hfirst |].
    apply Hrule; [exact Hsplit | by rewrite Hlen].
  - intros a b protocol Hfirst. unfold GetFullTypeWithSubTypes, GetFullType, find in *.
    set (suffix := if decide (protocol = kDnssdProtocolUdp)
                   then kProtocolUdp else kProtocolTcp).
    rewrite (strstr_app _ suffix _ _ Hfirst).
    by rewrite !app_assoc, take_app, drop_add, !drop_app, !app_assoc.
  - intros type protocol Hnone. unfold GetFullTypeWithSubTypes. by rewrite Hnone.
Qed.

End Codec.

(** ** Synchronous operations *)

Section Operations.
Context {IPAddress InterfaceId : Type}.

Local Abbreviation Ev := (@Event IPAddress InterfaceId).
Local Abbreviation Service := (@DnssdService InterfaceId).

Implicit Types (b : Binding) (sessions : gmap Z Z) (run : list Ev).

(** The three operations that wrap their call in [StackUnlock] make it with
    the lock released. *)
Lemma ChipDnssdRemoveServices_unlocks b exceptionThrown :
  backendOutsideLock true
    (ChipDnssdRemoveServices (IPAddress := IPAddress) (InterfaceId := InterfaceId)
       b exceptionThrown).2 = true.
Proof.
  unfold ChipDnssdRemoveServices, VerifyOrReturnError.
  by repeat case_match.
Qed.

Lemma ChipDnssdPublishService_unlocks b exceptionThrown (service : option Service) :
  backendOutsideLock true
    (ChipDnssdPublishService (IPAddress := IPAddress) b exceptionThrown service).2 = true.
Proof.
  unfold ChipDnssdPublishService, VerifyOrReturnError.
  by repeat case_match.
Qed.

Lemma ChipDnssdResolve_unlocks b exceptionThrown (service : option Service) callback context :
  backendOutsideLock true
    (ChipDnssdResolve (IPAddress := IPAddress) b exceptionThrown service callback context).2
  = true.
Proof.
  unfold ChipDnssdResolve, VerifyOrReturnError.
  by repeat case_match.
Qed.

(** C4: whenever [ChipDnssdBrowse] or [ChipDnssdStopBrowse] reaches the
    backend, it does so without having released the stack lock: in a run
    that starts with the lock held, the backend call happens under it. *)
Theorem browse_calls_backend_under_lock b envAvailable exceptionThrown sessions :
  (forall newContext type protocol callback context status run sessions' identifier,
      ChipDnssdBrowse b envAvailable exceptionThrown newContext sessions
        type protocol callback context = (status, run, sessions', identifier) ->
      backendCalls run <> [] ->
      backendOutsideLock true run = false)
  /\ (forall browseIdentifier status run sessions',
         ChipDnssdStopBrowse b envAvailable exceptionThrown sessions browseIdentifier
         = Some (status, run, sessions') ->
         backendCalls run <> [] ->
         backendOutsideLock true run = false).
Proof.
  split.
  - intros newContext type protocol callback context status run sessions' identifier.
    unfold ChipDnssdBrowse, VerifyOrReturnError.
    repeat case_match; intros [= <- <- <- <-]; done.
  - intros browseIdentifier status run sessions'.
    unfold ChipDnssdStopBrowse, VerifyOrReturnError.
    repeat case_match; intros [= <- <- <-]; done.
Qed.

(** C8: [ChipDnssdStopBrowse 0] fails with InvalidArgument and leaves the
    sessions alone.  With the browser bound and a JNI environment at hand, a
    non-zero identifier of a live session makes one backend stop call with
    the session's callback and destroys that session once, whether or not
    the backend call raised; the status is the JNI exception error when it
    did. *)
Theorem ChipDnssdStopBrowse_reclaims b envAvailable exceptionThrown sessions :
  ChipDnssdStopBrowse (IPAddress := IPAddress) (InterfaceId := InterfaceId)
    b envAvailable exceptionThrown sessions 0
  = Some (CHIP_ERROR_INVALID_ARGUMENT, [], sessions)
  /\ (forall browseIdentifier callback,
         browseIdentifier <> 0%Z ->
         sessions !! browseIdentifier = Some callback ->
         sBrowserObject b && sStopBrowseMethod b = true ->
         exists run : list Ev,
           ChipDnssdStopBrowse b true exceptionThrown sessions browseIdentifier
           = Some (if exceptionThrown then CHIP_JNI_ERROR_EXCEPTION_THROWN
                   else CHIP_NO_ERROR,
                   run, delete browseIdentifier sessions)
           /\ backendCalls run = [JStopDiscover callback]
           /\ released run = [BufBrowseContext browseIdentifier]
           /\ delete browseIdentifier sessions !! browseIdentifier = None
           /\ (forall other, other <> browseIdentifier ->
                             delete browseIdentifier sessions !! other = sessions !! other)).
Proof.
  split; [done|].
  intros browseIdentifier callback Hnz Hlive Hbound.
  unfold ChipDnssdStopBrowse, VerifyOrReturnError.
  rewrite bool_decide_eq_false_2 by done. simpl. rewrite Hbound, Hlive.
  eexists. split_and!; [done|done|done| |].
  - apply lookup_delete_eq.
  - intros other Hne. by apply lookup_delete_ne.
Qed.

(** The operations that answer an unbound backend with IncorrectState. *)
Lemma ChipDnssdRemoveServices_unbound b exceptionThrown :
  sResolverObject b && sRemoveServicesMethod b = false ->
  ChipDnssdRemoveServices (IPAddress := IPAddress) (InterfaceId := InterfaceId)
    b exceptionThrown = (CHIP_ERROR_INCORRECT_STATE, []).
Proof. intros H. unfold ChipDnssdRemoveServices. by rewrite H. Qed.

Lemma ChipDnssdPublishService_unbound b exceptionThrown (service : Service) :
  sResolverObject b && sPublishMethod b = false ->
  ChipDnssdPublishService (IPAddress := IPAddress) b exceptionThrown (Some service)
  = (CHIP_ERROR_INCORRECT_STATE, []).
Proof. intros H. unfold ChipDnssdPublishService. by rewrite H. Qed.

Lemma ChipDnssdResolve_unbound b exceptionThrown (service : Service) callback context :
  callback <> 0%Z ->
  sResolverObject b && sResolveMethod b && sMdnsCallbackObject b = false ->
  ChipDnssdResolve (IPAddress := IPAddress) b exceptionThrown (Some service)
    callback context = (CHIP_ERROR_INCORRECT_STATE, []).
Proof.
  intros Hcb H. unfold ChipDnssdResolve, VerifyOrReturnError.
  rewrite bool_decide_eq_false_2 by done. simpl.
  destruct (sResolverObject b && sResolveMethod b); [|done].
  simpl in H. by rewrite H.
Qed.

Lemma ChipDnssdBrowse_dispatcher_unbound b envAvailable exceptionThrown newContext
    sessions type protocol callback context :
  callback <> 0%Z ->
  sBrowserObject b && sBrowseMethod b = true ->
  sMdnsCallbackObject b = false ->
  ChipDnssdBrowse (IPAddress := IPAddress) (InterfaceId := InterfaceId)
    b envAvailable exceptionThrown newContext sessions (Some type) protocol
    callback context
  = (CHIP_ERROR_INCORRECT_STATE, [], sessions, None).
Proof.
  intros Hcb Hb Hd. unfold ChipDnssdBrowse, VerifyOrReturnError.
  rewrite bool_decide_eq_false_2 by done. simpl. by rewrite Hb, Hd.
Qed.

(** C9: with the browser object or its method unbound, [ChipDnssdBrowse]
    (given a type and a callback) and [ChipDnssdStopBrowse] (given a non-zero
    identifier) make no backend call and change nothing, but the status they
    return is InvalidArgument, not IncorrectState. *)
Theorem browse_unbound_is_invalid_argument b envAvailable exceptionThrown sessions :
  (forall newContext type protocol callback context,
      callback <> 0%Z ->
      sBrowserObject b && sBrowseMethod b = false ->
      ChipDnssdBrowse (IPAddress := IPAddress) (InterfaceId := InterfaceId)
        b envAvailable exceptionThrown newContext sessions (Some type) protocol
        callback context
      = (CHIP_ERROR_INVALID_ARGUMENT, [], sessions, None))
  /\ (forall browseIdentifier,
         browseIdentifier <> 0%Z ->
         sBrowserObject b && sStopBrowseMethod b = false ->
         ChipDnssdStopBrowse (IPAddress := IPAddress) (InterfaceId := InterfaceId)
           b envAvailable exceptionThrown sessions browseIdentifier
         = Some (CHIP_ERROR_INVALID_ARGUMENT, [], sessions)).
Proof.
  split.
  - intros newContext type protocol callback context Hcb Hb.
    unfold ChipDnssdBrowse, VerifyOrReturnError.
    rewrite bool_decide_eq_false_2 by done. simpl. by rewrite Hb.
  - intros browseIdentifier Hnz Hb.
    unfold ChipDnssdStopBrowse, VerifyOrReturnError.
    rewrite bool_decide_eq_false_2 by done. simpl. by rewrite Hb.
Qed.

End Operations.

(** ** Result entry points *)

Section Results.
Context {IPAddress InterfaceId : Type}.
Variable FromString : string -> option (IPAddress * InterfaceId).
Variable CopyString : nat -> string -> string.
Variable kInstanceNameMaxLength : nat.
Variable kDnssdTypeAndProtocolMaxSize : nat.
Variable kNameSize kHostNameSize kTypeSize : nat.
Variable defaultService : @DnssdService InterfaceId.

Local Abbreviation Ev := (@Event IPAddress InterfaceId).
Local Abbreviation Service := (@DnssdService InterfaceId).
Local Abbreviation HandleResolve' :=
  (HandleResolve FromString CopyString kInstanceNameMaxLength
     kDnssdTypeAndProtocolMaxSize kNameSize kHostNameSize kTypeSize).
Local Abbreviation HandleBrowse' :=
  (HandleBrowse (IPAddress := IPAddress) CopyString kInstanceNameMaxLength
     kNameSize kTypeSize defaultService).

Lemma resolveCallbacks_memoryOnly (run : list Ev) :
  Forall memoryOnly run -> resolveCallbacks run = [].
Proof.
  induction 1 as [|ev run Hev _ IH]; [done|].
  destruct ev; simpl in Hev; try done; exact IH.
Qed.

Lemma resolveCallbacks_app (r1 r2 : list Ev) :
  resolveCallbacks (r1 ++ r2) = resolveCallbacks r1 ++ resolveCallbacks r2.
Proof. apply omap_app. Qed.

Lemma fillTextEntries_memoryOnly allocOk size i keys entries n :
  Forall memoryOnly
    (fillTextEntries (IPAddress := IPAddress) (InterfaceId := InterfaceId)
       allocOk size i keys entries n).1.1.
Proof.
  revert i entries n. induction keys as [|[key datas] rest IH]; intros i entries n; simpl.
  - constructor.
  - destruct datas as [jnidata|].
    + destruct (allocOk (BufData i)).
      * specialize (IH (S i)
          (alter (setData (Some (jbyte_to_uint8 <$> jnidata)) (Z.of_nat (length jnidata))) i
             (alter (setKey key) i entries)) size).
        destruct (fillTextEntries _ _ _ _ _ _) as [[evs entries'] n'].
        simpl in *. by repeat constructor.
      * by repeat constructor.
    + specialize (IH (S i) (alter (setData None 0) i (alter (setKey key) i entries)) size).
      destruct (fillTextEntries _ _ _ _ _ _) as [[evs entries'] n'].
      simpl in *. by repeat constructor.
Qed.

Lemma marshalTextEntries_memoryOnly allocOk textEntries :
  Forall memoryOnly
    (marshalTextEntries (IPAddress := IPAddress) (InterfaceId := InterfaceId)
       allocOk textEntries).1.1.
Proof.
  unfold marshalTextEntries. destruct textEntries as [keys|]; [|constructor].
  destruct (allocOk BufEntries); [|constructor].
  pose proof (fillTextEntries_memoryOnly allocOk (Z.of_nat (length keys)) 0 keys
                (replicate (length keys) zeroTextEntry) 0%Z) as H.
  destruct (fillTextEntries _ _ _ _ _ _) as [[evs entries'] n'].
  simpl in *. by constructor.
Qed.

Lemma releaseTextEntries_memoryOnly entries n :
  Forall memoryOnly
    (releaseTextEntries (IPAddress := IPAddress) (InterfaceId := InterfaceId) entries n).
Proof.
  unfold releaseTextEntries. destruct entries as [entries|]; [|constructor].
  apply Forall_app. split; [|by repeat constructor].
  apply Forall_concat. generalize (take (Z.to_nat n) entries) as l. intros l.
  apply Forall_forall. intros evs [i [e [-> _]]]%elem_of_lookup_imap.
  apply Forall_app. split; unfold deleteArray; case_match; by repeat constructor.
Qed.

(** C1: a resolve completion with a non-zero callback handle invokes the
    callback exactly once, with the given handles: either with no error, the
    record built from the inputs and exactly one address (the parsed one),
    or with an error, no record and no address. *)
Theorem HandleResolve_dispatches_once allocOk instanceName serviceType hostName
    address port textEntries callbackHandle contextHandle :
  callbackHandle <> 0%Z ->
  exists service addresses error,
    resolveCallbacks
      (HandleResolve' allocOk instanceName serviceType hostName address port
         textEntries callbackHandle contextHandle)
    = [(callbackHandle, contextHandle, service, addresses, error)]
    /\ ((error = CHIP_NO_ERROR
         /\ exists record jniAddress ipAddress iface type protocol,
             service = Some record /\ addresses = [ipAddress]
             /\ address = Some jniAddress
             /\ FromString jniAddress = Some (ipAddress, iface)
             /\ extractProtocol kTypeSize serviceType = inr (type, protocol)
             /\ mName record = CopyString kNameSize instanceName
             /\ mHostName record = CopyString kHostNameSize hostName
             /\ mType record = type /\ mProtocol record = protocol
             /\ mPort record = port /\ mInterface record = iface)
        \/ (error <> CHIP_NO_ERROR /\ service = None /\ addresses = [])).
Proof.
  intros Hcb. unfold HandleResolve, VerifyOrReturnError.
  rewrite bool_decide_eq_false_2 by done. simpl negb. cbv iota.
  assert (forall e : CHIP_ERROR, e <> CHIP_NO_ERROR ->
    exists service addresses error,
      resolveCallbacks (resolveDispatch callbackHandle contextHandle e None None)
      = [(callbackHandle, contextHandle, service, addresses, error)]
      /\ ((error = CHIP_NO_ERROR
           /\ exists (record : Service) jniAddress (ipAddress : IPAddress) iface type protocol,
               service = Some record /\ addresses = [ipAddress]
               /\ address = Some jniAddress
               /\ FromString jniAddress = Some (ipAddress, iface)
               /\ extractProtocol kTypeSize serviceType = inr (type, protocol)
               /\ mName record = CopyString kNameSize instanceName
               /\ mHostName record = CopyString kHostNameSize hostName
               /\ mType record = type /\ mProtocol record = protocol
               /\ mPort record = port /\ mInterface record = iface)
          \/ (error <> CHIP_NO_ERROR /\ service = None /\ addresses = []))) as Hfail.
  { intros e He. exists None, [], e. split; [done|]. by right. }
  destruct address as [jniAddress|]; [|by apply Hfail].
  destruct (bool_decide (port = 0%Z)); [by apply Hfail|]. simpl negb. cbv iota.
  destruct (String.length instanceName <=? kInstanceNameMaxLength)%nat; [|by apply Hfail].
  destruct (String.length serviceType <=? kDnssdTypeAndProtocolMaxSize)%nat;
    [|by apply Hfail].
  destruct (CanCastTo_uint16 port); [|by apply Hfail].
  destruct (FromString jniAddress) as [[ipAddress iface]|] eqn:Haddr; [|by apply Hfail].
  destruct (extractProtocol kTypeSize serviceType) as [e|[type protocol]] eqn:Hty;
    [by apply Hfail|].
  pose proof (marshalTextEntries_memoryOnly allocOk textEntries) as Hallocs.
  destruct (marshalTextEntries allocOk textEntries) as [[allocs entries] n].
  simpl in Hallocs.
  eexists _, _, _. split.
  - rewrite !resolveCallbacks_app.
    rewrite (resolveCallbacks_memoryOnly allocs) by done.
    rewrite (resolveCallbacks_memoryOnly (releaseTextEntries _ _))
      by apply releaseTextEntries_memoryOnly.
    reflexivity.
  - left. split; [done|]. by eexists _, _, _, _, _, _.
Qed.

(** Any check of the browse loop that fails reports InvalidArgument, and an
    over-length name anywhere in the batch makes one fail. *)
Lemma fillServices_error serviceType i instanceName (service : list Service) e :
  fillServices CopyString kInstanceNameMaxLength kNameSize kTypeSize
    serviceType i instanceName service = inl e ->
  e = CHIP_ERROR_INVALID_ARGUMENT.
Proof.
  revert i service. induction instanceName as [|name rest IH]; intros i service; simpl.
  - done.
  - repeat case_match; try congruence. apply IH.
Qed.

Lemma fillServices_over_length serviceType i instanceName (service : list Service) :
  (exists name, name ∈ instanceName /\ kInstanceNameMaxLength < String.length name) ->
  fillServices CopyString kInstanceNameMaxLength kNameSize kTypeSize
    serviceType i instanceName service = inl CHIP_ERROR_INVALID_ARGUMENT.
Proof.
  intros (name & Hin & Hlong). revert i service.
  induction instanceName as [|first rest IH]; intros i service.
  - by apply elem_of_nil in Hin.
  - apply elem_of_cons in Hin as [<- | Hin]; simpl.
    + apply Nat.leb_gt in Hlong as ->. done.
    + repeat case_match; try done. by apply IH.
Qed.

(** C7: a browse batch that holds an over-length instance name, delivered
    with a non-zero callback handle, invokes the callback exactly once, with
    InvalidArgument, no service array and size zero: the valid names before
    the bad one are not delivered. *)
Theorem HandleBrowse_aborts_batch instanceName serviceType callbackHandle contextHandle :
  callbackHandle <> 0%Z ->
  (exists name, name ∈ instanceName /\ kInstanceNameMaxLength < String.length name) ->
  browseCallbacks (HandleBrowse' instanceName serviceType callbackHandle contextHandle)
  = [(callbackHandle, contextHandle, None, 0%Z, true, CHIP_ERROR_INVALID_ARGUMENT)].
Proof.
  intros Hcb Hbad. unfold HandleBrowse, VerifyOrReturnError.
  rewrite bool_decide_eq_false_2 by done. simpl negb. cbv iota.
  by rewrite fillServices_over_length.
Qed.

(** *** The marshalling loop in closed form *)

Lemma truncatedAt_length j (keys : TextEntryMap) :
  length (truncatedAt j keys) = length keys.
Proof.
  revert j; induction keys as [|kv rest IH]; intros [|j]; simpl; try done.
  - by rewrite length_replicate.
  - by rewrite IH.
Qed.

Lemma firstFailure_spec allocOk i keys j :
  firstFailure allocOk i keys = Some j ->
  exists key jnidata,
    keys !! j = Some (key, Some jnidata) /\ allocOk (BufData (i + j)) = false.
Proof.
  revert i j; induction keys as [|[key datas] rest IH]; intros i j; simpl; [done|].
  destruct (bool_decide (is_Some datas) && negb (allocOk (BufData i))) eqn:E.
  - intros [= <-]. apply andb_prop in E as [[jnidata ->]%bool_decide_eq_true Hno].
    exists key, jnidata. rewrite Nat.add_0_r. split; [done|].
    by apply negb_true_iff.
  - destruct (firstFailure allocOk (S i) rest) as [j'|] eqn:Ej; [|done].
    intros [= <-]. destruct (IH _ _ Ej) as (key' & jnidata & Hl & Hno).
    exists key', jnidata. split; [done|]. by rewrite <- Nat.add_succ_comm.
Qed.


Lemma alter_next (f : TextEntry -> TextEntry) (done_ rest : list TextEntry) x :
  alter f (length done_) (done_ ++ x :: rest) = done_ ++ f x :: rest.
Proof. by rewrite <- (Nat.add_0_r (length done_)), alter_app_r. Qed.

Lemma alter_slot (f g : TextEntry -> TextEntry) (done_ rest : list TextEntry) x :
  alter g (length done_) (alter f (length done_) (done_ ++ x :: rest))
  = (done_ ++ [g (f x)]) ++ rest.
Proof. by rewrite !alter_next, <- app_assoc. Qed.

(** What the loop leaves at the [exit] label: with no refused allocation,
    the complete array and the full size; with a refusal at position [j],
    the array truncated there, and the size untouched when [j] is the first
    slot visited. *)
Lemma fillTextEntries_run allocOk size i keys (done_ : list TextEntry) n :
  length done_ = i ->
  fillTextEntries (IPAddress := IPAddress) (InterfaceId := InterfaceId)
    allocOk size i keys (done_ ++ replicate (length keys) zeroTextEntry) n
  = match firstFailure allocOk i keys with
    | None =>
        (allocationsFor i keys, done_ ++ (builtEntry <$> keys),
         match keys with [] => n | _ => size end)
    | Some j =>
        (allocationsFor i (take j keys) ++ [EvAlloc (BufKey (i + j))],
         done_ ++ truncatedAt j keys,
         match j with 0 => n | _ => size end)
    end.
Proof.
  revert i done_ n. induction keys as [|[key datas] rest IH]; intros i done_ n Hlen.
  - done.
  - subst i. cbn [length replicate fillTextEntries firstFailure].
    destruct datas as [jnidata|].
    + destruct (allocOk (BufData (length done_))) eqn:Hok; simpl.
      * rewrite alter_slot.
        rewrite IH by (rewrite length_app; simpl; lia).
        destruct (firstFailure allocOk (S (length done_)) rest) as [j|]; simpl.
        -- rewrite <- app_assoc, <- Nat.add_succ_comm. simpl. by destruct j.
        -- rewrite <- app_assoc. simpl. by destruct rest.
      * by rewrite Nat.add_0_r, alter_next.
    + simpl. rewrite alter_slot.
      rewrite IH by (rewrite length_app; simpl; lia).
      destruct (firstFailure allocOk (S (length done_)) rest) as [j|]; simpl.
      * rewrite <- app_assoc, <- Nat.add_succ_comm. simpl. by destruct j.
      * rewrite <- app_assoc. simpl. by destruct rest.
Qed.

Lemma marshalTextEntries_run allocOk keys :
  allocOk BufEntries = true ->
  marshalTextEntries (IPAddress := IPAddress) (InterfaceId := InterfaceId)
    allocOk (Some keys)
  = match firstFailure allocOk 0 keys with
    | None =>
        (EvAlloc BufEntries :: allocationsFor 0 keys,
         Some (builtEntry <$> keys), Z.of_nat (length keys))
    | Some j =>
        (EvAlloc BufEntries :: allocationsFor 0 (take j keys) ++ [EvAlloc (BufKey j)],
         Some (truncatedAt j keys),
         match j with 0 => 0%Z | _ => Z.of_nat (length keys) end)
    end.
Proof.
  intros Hok. unfold marshalTextEntries. rewrite Hok.
  rewrite (fillTextEntries_run allocOk _ 0 keys [] 0%Z eq_refl).
  destruct (firstFailure allocOk 0 keys) as [j|]; [done|].
  by destruct keys.
Qed.

(** A result that passes validation reaches the TXT block: the run is the
    allocations of the block, one dispatch of a record that carries the
    entries array and size the block left, and the release code. *)
Lemma HandleResolve_valid allocOk instanceName serviceType hostName address port
    textEntries callbackHandle contextHandle :
  callbackHandle <> 0%Z ->
  passesValidation FromString kInstanceNameMaxLength kDnssdTypeAndProtocolMaxSize
    kTypeSize instanceName serviceType address port ->
  exists (record : Service) (ipAddress : IPAddress),
    let m := marshalTextEntries (IPAddress := IPAddress) (InterfaceId := InterfaceId)
               allocOk textEntries in
    mTextEntries record = m.1.2
    /\ mTextEntrySize record = m.2
    /\ HandleResolve' allocOk instanceName serviceType hostName address port
         textEntries callbackHandle contextHandle
       = m.1.1
           ++ resolveDispatch callbackHandle contextHandle CHIP_NO_ERROR
                (Some record) (Some ipAddress)
           ++ releaseTextEntries m.1.2 m.2.
Proof.
  intros Hcb (Hport & Hname & Htype & Hcast & (jniAddress & -> & [[ip iface] Hip])
              & ([type protocol] & Hdec)).
  unfold HandleResolve, VerifyOrReturnError.
  rewrite !bool_decide_eq_false_2 by done. simpl negb. cbv iota.
  apply Nat.leb_le in Hname as ->. apply Nat.leb_le in Htype as ->.
  rewrite Hcast, Hip, Hdec.
  destruct (marshalTextEntries allocOk textEntries) as [[allocs entries] n].
  eexists _, _. simpl. split_and!; [| |reflexivity]; reflexivity.
Qed.


(** C5: when a result that passes validation carries a TXT map whose first
    key has data, the entries array is granted and the data buffer of that
    first key is refused, the key buffer of slot 0 is allocated before the
    callback and never released: the release code frees the array only. *)
Theorem HandleResolve_leaks_first_key allocOk instanceName serviceType hostName
    address port key jnidata rest callbackHandle contextHandle :
  callbackHandle <> 0%Z ->
  passesValidation FromString kInstanceNameMaxLength kDnssdTypeAndProtocolMaxSize
    kTypeSize instanceName serviceType address port ->
  allocOk BufEntries = true ->
  allocOk (BufData 0) = false ->
  let run := HandleResolve' allocOk instanceName serviceType hostName address port
               (Some ((key, Some jnidata) :: rest)) callbackHandle contextHandle in
  allocatedBeforeCallback run = [BufEntries; BufKey 0]
  /\ released run = [BufEntries]
  /\ leaked run = [BufKey 0].
Proof.
  intros Hcb Hvalid Hentries Hdata run. subst run.
  destruct (HandleResolve_valid allocOk instanceName serviceType hostName address port
              (Some ((key, Some jnidata) :: rest)) callbackHandle contextHandle Hcb Hvalid)
    as (record & ipAddress & _ & _ & ->).
  unfold marshalTextEntries. rewrite Hentries. simpl. rewrite Hdata. simpl.
  by split_and!.
Qed.

(** *** Allocation and release, block by block *)

Lemma released_app (r1 r2 : list Ev) : released (r1 ++ r2) = released r1 ++ released r2.
Proof. apply omap_app. Qed.

Lemma allocated_app (r1 r2 : list Ev) : allocated (r1 ++ r2) = allocated r1 ++ allocated r2.
Proof. apply omap_app. Qed.

Lemma allocated_allocs (bs : list Buffer) :
  allocated (EvAlloc (IPAddress := IPAddress) (InterfaceId := InterfaceId) <$> bs) = bs
  /\ released (EvAlloc (IPAddress := IPAddress) (InterfaceId := InterfaceId) <$> bs) = []
  /\ allocatedBeforeCallback
       (EvAlloc (IPAddress := IPAddress) (InterfaceId := InterfaceId) <$> bs) = bs.
Proof.
  induction bs as [|b bs (IH1 & IH2 & IH3)]; [done|].
  split_and!; [| exact IH2 |]; unfold allocated in *; simpl; by f_equal.
Qed.

Lemma allocatedBeforeCallback_app (bs : list Buffer) (run : list Ev) :
  allocatedBeforeCallback ((EvAlloc <$> bs) ++ run) = bs ++ allocatedBeforeCallback run.
Proof.
  induction bs as [|b bs IH]; [done|].
  change (allocatedBeforeCallback ((EvAlloc <$> b :: bs) ++ run))
    with (b :: allocatedBeforeCallback ((EvAlloc <$> bs) ++ run)).
  by rewrite IH.
Qed.

Lemma release_loop_slots i (entries : list TextEntry) :
  released
    (concat (imap (fun k e =>
                     deleteArray (IPAddress := IPAddress) (InterfaceId := InterfaceId)
                       (mKey e) (BufKey (i + k))
                     ++ deleteArray (mData e) (BufData (i + k))) entries))
  = releasedSlots i entries.
Proof.
  revert i. induction entries as [|e rest IH]; intros i; [done|].
  rewrite imap_cons. simpl concat. rewrite !released_app, Nat.add_0_r. simpl releasedSlots.
  rewrite <- app_assoc. f_equal; [by destruct (mKey e)|].
  f_equal; [by destruct (mData e)|].
  rewrite <- IH. do 2 f_equal. apply imap_ext. intros k e' _. simpl.
  by rewrite Nat.add_succ_r.
Qed.

Lemma releaseTextEntries_slots (entries : list TextEntry) n :
  released (releaseTextEntries (IPAddress := IPAddress) (InterfaceId := InterfaceId)
              (Some entries) n)
  = releasedSlots 0 (take (Z.to_nat n) entries) ++ [BufEntries].
Proof.
  unfold releaseTextEntries. rewrite released_app. f_equal.
  exact (release_loop_slots 0 (take (Z.to_nat n) entries)).
Qed.

Lemma releasedSlots_built i (keys : TextEntryMap) :
  releasedSlots i (builtEntry <$> keys) = blocksFor i keys.
Proof.
  revert i. induction keys as [|[key datas] rest IH]; intros i; [done|].
  simpl. rewrite IH. by destruct datas.
Qed.

Lemma releasedSlots_zero i n : releasedSlots i (replicate n zeroTextEntry) = [].
Proof. revert i. induction n as [|n IH]; intros i; [done|]. simpl. apply IH. Qed.

Lemma releasedSlots_truncated i j (keys : TextEntryMap) :
  j < length keys ->
  releasedSlots i (truncatedAt j keys) = blocksFor i (take j keys) ++ [BufKey (i + j)].
Proof.
  revert i j. induction keys as [|[key datas] rest IH]; intros i j Hj; simpl in Hj; [lia|].
  destruct j as [|j]; simpl.
  - by rewrite releasedSlots_zero, Nat.add_0_r.
  - rewrite IH by lia. rewrite <- Nat.add_succ_comm. by destruct datas.
Qed.

(** The blocks of a pass belong to the slots it visits. *)
Lemma blocksFor_slots i (keys : TextEntryMap) b :
  b ∈ blocksFor i keys -> exists k, slotOf b = Some k /\ i <= k < i + length keys.
Proof.
  revert i. induction keys as [|[key datas] rest IH]; intros i; simpl.
  - by intros ?%elem_of_nil.
  - rewrite elem_of_cons, elem_of_app. intros [-> | [Hd | Hr]].
    + exists i. split; [done | lia].
    + destruct datas; [|by apply elem_of_nil in Hd].
      apply list_elem_of_singleton in Hd as ->. exists i. split; [done | lia].
    + destruct (IH _ Hr) as (k & Hk & Hrange). exists k. split; [done | lia].
Qed.

Lemma blocksFor_NoDup i (keys : TextEntryMap) : NoDup (blocksFor i keys).
Proof.
  revert i. induction keys as [|[key datas] rest IH]; intros i; simpl; [constructor|].
  assert (forall b, slotOf b = Some i -> b ∉ blocksFor (S i) rest) as Hfresh.
  { intros b Hb (k & Hk & Hrange)%blocksFor_slots. rewrite Hb in Hk.
    injection Hk as <-. lia. }
  apply NoDup_cons. split.
  - rewrite elem_of_app. intros [Hd | Hr]; [|by apply (Hfresh (BufKey i))].
    destruct datas; [|by apply elem_of_nil in Hd].
    by apply list_elem_of_singleton in Hd.
  - apply NoDup_app. split_and!; [| |apply IH].
    + destruct datas; [apply NoDup_singleton | constructor].
    + intros b Hd. destruct datas; [|by apply elem_of_nil in Hd].
      apply list_elem_of_singleton in Hd as ->. by apply Hfresh.
Qed.

Lemma blocksFor_keys i (keys : TextEntryMap) :
  length (filter (fun b => isKey b = true) (blocksFor i keys)) = length keys
  /\ length (filter (fun b => isData b = true) (blocksFor i keys)) <= length keys.
Proof.
  revert i. induction keys as [|[key datas] rest IH]; intros i; simpl; [done|].
  destruct (IH (S i)) as [Hk Hd].
  rewrite !filter_cons, !filter_app. simpl.
  rewrite !length_app, Hk.
  destruct datas; simpl; split; lia.
Qed.

Lemma allocated_release_loop (F : nat -> TextEntry -> list Ev) (entries : list TextEntry) :
  (forall k e, allocated (F k e) = []) ->
  allocated (concat (imap F entries)) = [].
Proof.
  revert F. induction entries as [|e rest IH]; intros F HF; [done|].
  rewrite imap_cons. simpl concat. rewrite allocated_app, HF. simpl.
  apply IH. intros k e'. apply HF.
Qed.

Lemma allocated_releaseTextEntries entries n :
  allocated (releaseTextEntries (IPAddress := IPAddress) (InterfaceId := InterfaceId)
               entries n) = [].
Proof.
  destruct entries as [entries|]; [|done]. unfold releaseTextEntries.
  rewrite allocated_app, allocated_release_loop; [done|].
  intros k e. by destruct (mKey e), (mData e).
Qed.

(** A run of the TXT block: allocations, one dispatch, release. *)
Lemma resolve_run_blocks (bs : list Buffer) (record : Service) (ipAddress : IPAddress)
    callbackHandle contextHandle (entries : list TextEntry) n :
  let run := (EvAlloc <$> bs)
               ++ resolveDispatch callbackHandle contextHandle CHIP_NO_ERROR
                    (Some record) (Some ipAddress)
               ++ releaseTextEntries (Some entries) n in
  allocatedBeforeCallback run = bs
  /\ allocated run = bs
  /\ released run = releasedSlots 0 (take (Z.to_nat n) entries) ++ [BufEntries].
Proof.
  intros run. subst run. destruct (allocated_allocs bs) as (Ha & Hr & _).
  split_and!.
  - rewrite allocatedBeforeCallback_app. simpl. apply app_nil_r.
  - rewrite !allocated_app, Ha, allocated_releaseTextEntries. simpl. apply app_nil_r.
  - rewrite !released_app, Hr, releaseTextEntries_slots. done.
Qed.

(** The outcome of the TXT block for a map, by what the allocator refused:
    the blocks allocated before the callback, and the blocks released after
    it. *)
Lemma HandleResolve_blocks allocOk instanceName serviceType hostName address port
    keys callbackHandle contextHandle :
  callbackHandle <> 0%Z ->
  passesValidation FromString kInstanceNameMaxLength kDnssdTypeAndProtocolMaxSize
    kTypeSize instanceName serviceType address port ->
  allocOk BufEntries = true ->
  let run := HandleResolve' allocOk instanceName serviceType hostName address port
               (Some keys) callbackHandle contextHandle in
  allocatedBeforeCallback run = allocated run
  /\ match firstFailure allocOk 0 keys with
     | None =>
         allocated run = BufEntries :: blocksFor 0 keys
         /\ released run = blocksFor 0 keys ++ [BufEntries]
     | Some 0 =>
         allocated run = [BufEntries; BufKey 0] /\ released run = [BufEntries]
     | Some j =>
         allocated run = BufEntries :: blocksFor 0 (take j keys) ++ [BufKey j]
         /\ released run = (blocksFor 0 (take j keys) ++ [BufKey j]) ++ [BufEntries]
     end.
Proof.
  intros Hcb Hvalid Hok run. subst run.
  destruct (HandleResolve_valid allocOk instanceName serviceType hostName address port
              (Some keys) callbackHandle contextHandle Hcb Hvalid)
    as (record & ipAddress & _ & _ & ->).
  rewrite marshalTextEntries_run by done.
  destruct (firstFailure allocOk 0 keys) as [j|] eqn:Hj; cbn [fst snd].
  - destruct (firstFailure_spec _ _ _ _ Hj) as (key & jnidata & Hl%lookup_lt_Some & _).
    assert (EvAlloc BufEntries :: allocationsFor 0 (take j keys) ++ [EvAlloc (BufKey j)]
            = EvAlloc (IPAddress := IPAddress) (InterfaceId := InterfaceId)
                <$> (BufEntries :: blocksFor 0 (take j keys) ++ [BufKey j])) as ->.
    { unfold allocationsFor. by rewrite fmap_cons, fmap_app. }
    destruct (resolve_run_blocks (BufEntries :: blocksFor 0 (take j keys) ++ [BufKey j])
                record ipAddress callbackHandle contextHandle (truncatedAt j keys)
                (match j with 0 => 0%Z | _ => Z.of_nat (length keys) end))
      as (Hb & Ha & Hr).
    rewrite Hb, Ha, Hr. split; [done|].
    destruct j as [|j]; [done|]. split; [done|].
    rewrite Nat2Z.id, take_ge by by rewrite truncatedAt_length.
    by rewrite releasedSlots_truncated.
  - change (EvAlloc BufEntries :: allocationsFor 0 keys)
      with (EvAlloc (IPAddress := IPAddress) (InterfaceId := InterfaceId)
              <$> (BufEntries :: blocksFor 0 keys)).
    destruct (resolve_run_blocks (BufEntries :: blocksFor 0 keys)
                record ipAddress callbackHandle contextHandle (builtEntry <$> keys)
                (Z.of_nat (length keys)))
      as (Hb & Ha & Hr).
    rewrite Hb, Ha, Hr. split; [done|]. split; [done|].
    rewrite Nat2Z.id, take_ge by by rewrite length_fmap.
    by rewrite releasedSlots_built.
Qed.

(** Where the claim of C5 holds: unless the refused allocation is the data
    buffer of the first slot, the blocks released after the callback are
    the blocks allocated before it, each once; and with nothing refused
    there is one key buffer per entry and at most one data buffer per
    entry. *)
Lemma HandleResolve_releases_all allocOk instanceName serviceType hostName address port
    keys callbackHandle contextHandle :
  callbackHandle <> 0%Z ->
  passesValidation FromString kInstanceNameMaxLength kDnssdTypeAndProtocolMaxSize
    kTypeSize instanceName serviceType address port ->
  allocOk BufEntries = true ->
  firstFailure allocOk 0 keys <> Some 0 ->
  let run := HandleResolve' allocOk instanceName serviceType hostName address port
               (Some keys) callbackHandle contextHandle in
  released run ≡ₚ allocatedBeforeCallback run
  /\ NoDup (released run)
  /\ (firstFailure allocOk 0 keys = None ->
      length (filter (fun b => isKey b = true) (allocatedBeforeCallback run)) = length keys
      /\ length (filter (fun b => isData b = true) (allocatedBeforeCallback run))
         <= length keys).
Proof.
  intros Hcb Hvalid Hok Hfirst run.
  destruct (HandleResolve_blocks allocOk instanceName serviceType hostName address port
              keys callbackHandle contextHandle Hcb Hvalid Hok) as [Hbefore Hblocks].
  fold run in Hbefore, Hblocks. rewrite Hbefore.
  destruct (firstFailure allocOk 0 keys) as [[|j]|] eqn:Hj; [done| |].
  - destruct Hblocks as [-> ->].
    destruct (firstFailure_spec _ _ _ _ Hj) as (key & jnidata & Hl%lookup_lt_Some & _).
    assert (NoDup (blocksFor 0 (take (S j) keys) ++ [BufKey (S j)])) as Hnd.
    { apply NoDup_app. split_and!; [apply blocksFor_NoDup | | apply NoDup_singleton].
      intros b (k & Hk & Hrange)%blocksFor_slots ->%list_elem_of_singleton.
      rewrite length_take in Hrange. injection Hk as <-. lia. }
    split_and!; [|  |done].
    + symmetry. apply Permutation_cons_append.
    + apply NoDup_app. split_and!; [done| |apply NoDup_singleton].
      intros b Hb ->%list_elem_of_singleton.
      apply elem_of_app in Hb as [(k & Hk & _)%blocksFor_slots | Hb]; [done|].
      by apply list_elem_of_singleton in Hb.
  - destruct Hblocks as [-> ->]. split_and!.
    + symmetry. apply Permutation_cons_append.
    + apply NoDup_app. split_and!; [apply blocksFor_NoDup | | apply NoDup_singleton].
      intros b (k & Hk & _)%blocksFor_slots ->%list_elem_of_singleton. done.
    + intros _. rewrite !filter_cons. simpl. apply blocksFor_keys.
Qed.

End Results.

(** * Concrete runs *)

Section Runs.

Example GetFullType_unknown_is_tcp :
  GetFullType "_matter" kDnssdProtocolUnknown = "_matter._tcp".
Proof. reflexivity. Qed.

Example extractProtocol_matterc_udp :
  extractProtocol 32 "_matterc._udp" = inr ("_matterc", kDnssdProtocolUdp).
Proof. reflexivity. Qed.

Example GetFullTypeWithSubTypes_commissionable :
  GetFullTypeWithSubTypes "_L840._sub._matterc" kDnssdProtocolUdp
  = "_matterc._udp,_L840".
Proof. reflexivity. Qed.

(** C2 at ["_matter"], tcp, with a 32-byte buffer. *)
Lemma extractProtocol_GetFullType_witness :
  (kDnssdProtocolTcp = kDnssdProtocolTcp \/ kDnssdProtocolTcp = kDnssdProtocolUdp)
  /\ String.length "_matter" + 1 <= 32
  /\ extractProtocol 32 (GetFullType "_matter" kDnssdProtocolTcp)
     = inr ("_matter", kDnssdProtocolTcp).
Proof.
  split; [by left|]. split; [simpl; lia|].
  apply (extractProtocol_GetFullType 32 "_matter" kDnssdProtocolTcp);
    [by left | simpl; lia].
Defined.

(** C6 as stated fails: a suffix that only begins with [._tcp] is accepted. *)
Lemma extractProtocol_exact_suffix_counterexample :
  extractProtocol 32 "_matter._tcpx" = inr ("_matter", kDnssdProtocolTcp)
  /\ CStr.drop 7 "_matter._tcpx" = "._tcpx"
  /\ "._tcpx" <> "._tcp" /\ "._tcpx" <> "._udp".
Proof. by split_and!. Qed.

(** C6 (amended) at ["_matter._tcpx"]. *)
Lemma extractProtocol_accepts_witness :
  (exists rest,
      "_matter._tcpx" = "_matter" +:+ String "." rest /\ CStr.lacks "." rest = true
      /\ String.length "_matter" + 1 <= 32
      /\ ((kDnssdProtocolTcp = kDnssdProtocolTcp /\ String.prefix "_tcp" rest = true)
          \/ (kDnssdProtocolTcp = kDnssdProtocolUdp /\ String.prefix "_udp" rest = true)))
  /\ extractProtocol 32 "_matter._tcpx" = inr ("_matter", kDnssdProtocolTcp).
Proof.
  assert (exists rest,
      "_matter._tcpx" = "_matter" +:+ String "." rest /\ CStr.lacks "." rest = true
      /\ String.length "_matter" + 1 <= 32
      /\ ((kDnssdProtocolTcp = kDnssdProtocolTcp /\ String.prefix "_tcp" rest = true)
          \/ (kDnssdProtocolTcp = kDnssdProtocolUdp /\ String.prefix "_udp" rest = true)))
    as Hshape.
  { exists "_tcpx". split_and!; [done|done|simpl; lia|by left]. }
  split; [exact Hshape|].
  exact (proj2 (proj1 (extractProtocol_accepts 32 "_matter._tcpx")
                  "_matter" kDnssdProtocolTcp) Hshape).
Defined.

(** C3 as stated fails: the text after the marker keeps the protocol
    suffix and the text before it comes last; and a type without marker
    that ends in [._sub] is reordered all the same. *)
Lemma GetFullTypeWithSubTypes_counterexample :
  GetFullTypeWithSubTypes "_matter._sub.foo" kDnssdProtocolTcp = "foo._tcp,_matter"
  /\ GetFullTypeWithSubTypes "_matter._sub.foo" kDnssdProtocolTcp <> "foo,_matter._tcp"
  /\ CStr.find "x._sub" subtypeDelimiter = None
  /\ GetFullTypeWithSubTypes "x._sub" kDnssdProtocolTcp = "_tcp,x"
  /\ GetFullTypeWithSubTypes "x._sub" kDnssdProtocolTcp
     <> GetFullType "x._sub" kDnssdProtocolTcp.
Proof. by split_and!. Qed.

(** C3 (amended) at ["x._sub"] with tcp, where the marker is completed by
    the dot of the protocol suffix, and at ["_L840._sub._matterc"] with
    udp. *)
Lemma GetFullTypeWithSubTypes_reorders_witness :
  GetFullType "x._sub" kDnssdProtocolTcp = "x" +:+ subtypeDelimiter +:+ "_tcp"
  /\ CStr.find (GetFullType "x._sub" kDnssdProtocolTcp) subtypeDelimiter
     = Some (String.length "x")
  /\ GetFullTypeWithSubTypes "x._sub" kDnssdProtocolTcp = "_tcp" +:+ "," +:+ "x"
  /\ CStr.find ("_L840" +:+ subtypeDelimiter +:+ "_matterc") subtypeDelimiter
     = Some (String.length "_L840")
  /\ GetFullTypeWithSubTypes ("_L840" +:+ subtypeDelimiter +:+ "_matterc")
       kDnssdProtocolUdp
     = GetFullType "_matterc" kDnssdProtocolUdp +:+ "," +:+ "_L840".
Proof.
  split; [reflexivity|]. split; [reflexivity|]. split.
  - apply (proj1 GetFullTypeWithSubTypes_reorders "x._sub" kDnssdProtocolTcp "x" "_tcp");
      reflexivity.
  - split; [reflexivity|].
    apply (proj1 (proj2 (proj2 GetFullTypeWithSubTypes_reorders))
             "_L840" "_matterc" kDnssdProtocolUdp).
    reflexivity.
Defined.

(** C4 at a browse for ["_matter"] over tcp with everything bound: the
    backend call is the first step of the run, with no unlock before it. *)
Lemma browse_calls_backend_under_lock_witness :
  ChipDnssdBrowse Sample.bound true false (Some 4096%Z) ∅ (Some "_matter")
    kDnssdProtocolTcp 7 9
  = (CHIP_NO_ERROR,
     [EvBackend (JBrowse "_matter._tcp" 7 9); EvAlloc (BufBrowseContext 4096)] : list Sample.Ev,
     <[4096%Z := 7%Z]> ∅, Some 4096%Z)
  /\ backendCalls
       ([EvBackend (JBrowse "_matter._tcp" 7 9); EvAlloc (BufBrowseContext 4096)] : list Sample.Ev)
     <> []
  /\ backendOutsideLock true
       ([EvBackend (JBrowse "_matter._tcp" 7 9); EvAlloc (BufBrowseContext 4096)] : list Sample.Ev)
     = false.
Proof.
  split; [reflexivity|]. split; [done|].
  apply (proj1 (browse_calls_backend_under_lock Sample.bound true false ∅)
           (Some 4096%Z) (Some "_matter") kDnssdProtocolTcp 7%Z 9%Z
           CHIP_NO_ERROR _ (<[4096%Z := 7%Z]> ∅) (Some 4096%Z) eq_refl).
  done.
Defined.

(** The same operation through a path that does release the lock. *)
Example ChipDnssdResolve_run :
  ChipDnssdResolve Sample.bound false (Some Sample.defaultService) 7 9
  = (CHIP_NO_ERROR,
     [EvUnlockChipStack; EvBackend (JResolve "" "._tcp" 7 9); EvLockChipStack] : list Sample.Ev).
Proof. reflexivity. Qed.

(** C8 at a live session whose backend stop call raises. *)
Lemma ChipDnssdStopBrowse_reclaims_witness :
  4096%Z <> 0%Z
  /\ (<[4096%Z := 7%Z]> ∅ : gmap Z Z) !! 4096%Z = Some 7%Z
  /\ sBrowserObject Sample.bound && sStopBrowseMethod Sample.bound = true
  /\ exists run : list Sample.Ev,
      ChipDnssdStopBrowse Sample.bound true true (<[4096%Z := 7%Z]> ∅) 4096
      = Some (CHIP_JNI_ERROR_EXCEPTION_THROWN, run, delete 4096%Z (<[4096%Z := 7%Z]> ∅))
      /\ backendCalls run = [JStopDiscover 7]
      /\ released run = [BufBrowseContext 4096].
Proof.
  assert ((<[4096%Z := 7%Z]> ∅ : gmap Z Z) !! 4096%Z = Some 7%Z) as Hlive
    by apply lookup_insert_eq.
  split; [done|]. split; [exact Hlive|]. split; [done|].
  destruct (proj2 (ChipDnssdStopBrowse_reclaims (IPAddress := string) (InterfaceId := Z)
                     Sample.bound true true (<[4096%Z := 7%Z]> ∅))
              4096%Z 7%Z ltac:(done) Hlive eq_refl)
    as (run & Hrun & Hcalls & Hfree & _).
  exists run. by split_and!.
Defined.

(** C9 at a browse and a stop-browse with nothing bound. *)
Lemma browse_unbound_is_invalid_argument_witness :
  7%Z <> 0%Z
  /\ sBrowserObject Sample.unbound && sBrowseMethod Sample.unbound = false
  /\ ChipDnssdBrowse Sample.unbound true false (Some 4096%Z) ∅ (Some "_matter")
       kDnssdProtocolTcp 7 9
     = (CHIP_ERROR_INVALID_ARGUMENT, [] : list Sample.Ev, ∅, None)
  /\ ChipDnssdStopBrowse Sample.unbound true false (<[4096%Z := 7%Z]> ∅) 4096
     = Some (CHIP_ERROR_INVALID_ARGUMENT, [] : list Sample.Ev, <[4096%Z := 7%Z]> ∅).
Proof.
  split; [done|]. split; [done|]. split.
  - apply (proj1 (browse_unbound_is_invalid_argument Sample.unbound true false ∅)); done.
  - apply (proj2 (browse_unbound_is_invalid_argument Sample.unbound true false
                    (<[4096%Z := 7%Z]> ∅))); done.
Defined.

(** The sibling operations answer the same situation with IncorrectState. *)
Example ChipDnssdResolve_unbound_run :
  ChipDnssdResolve Sample.unbound false (Some Sample.defaultService) 7 9
  = (CHIP_ERROR_INCORRECT_STATE, [] : list Sample.Ev).
Proof. reflexivity. Qed.

Example ChipDnssdRemoveServices_unbound_run :
  ChipDnssdRemoveServices Sample.unbound false = (CHIP_ERROR_INCORRECT_STATE, [] : list Sample.Ev).
Proof. reflexivity. Qed.

Lemma sample_passesValidation :
  Sample.passesValidation "node-1" "_matter._tcp" (Some "fe80::1") 5540.
Proof.
  unfold Sample.passesValidation, passesValidation.
  split_and!; [done | simpl; unfold Sample.kInstanceNameMaxLength; lia
              | simpl; unfold Sample.kDnssdTypeAndProtocolMaxSize; lia | done | |].
  - exists "fe80::1". split; [done | by eexists].
  - by eexists.
Defined.

(** C1 at a well-formed result with three TXT entries. *)
Lemma HandleResolve_dispatches_once_witness :
  7%Z <> 0%Z
  /\ exists service addresses error,
      resolveCallbacks
        (Sample.HandleResolve (fun _ => true) "node-1" "_matter._tcp" "host"
           (Some "fe80::1") 5540 (Some Sample.txt) 7 9)
      = [(7%Z, 9%Z, service, addresses, error)].
Proof.
  split; [done|].
  destruct (HandleResolve_dispatches_once Sample.FromString Sample.CopyString Sample.kInstanceNameMaxLength
              Sample.kDnssdTypeAndProtocolMaxSize Sample.kNameSize Sample.kHostNameSize Sample.kTypeSize
              (fun _ => true) "node-1" "_matter._tcp" "host" (Some "fe80::1") 5540%Z
              (Some Sample.txt) 7%Z 9%Z ltac:(done))
    as (service & addresses & error & Hrun & _).
  by exists service, addresses, error.
Defined.

Example HandleResolve_no_address :
  resolveCallbacks (Sample.HandleResolve (fun _ => true) "node-1" "_matter._tcp" "host"
                      None 5540 (Some Sample.txt) 7 9)
  = [(7%Z, 9%Z, None, [], CHIP_ERROR_UNKNOWN_RESOURCE_ID)].
Proof. reflexivity. Qed.

(** C7 at a valid name followed by an over-length one. *)
Lemma HandleBrowse_aborts_batch_witness :
  7%Z <> 0%Z
  /\ (exists name, name ∈ ["node-1"; Sample.longName]
                   /\ Sample.kInstanceNameMaxLength < String.length name)
  /\ browseCallbacks (Sample.HandleBrowse ["node-1"; Sample.longName] "_matter._tcp" 7 9)
     = [(7%Z, 9%Z, None, 0%Z, true, CHIP_ERROR_INVALID_ARGUMENT)].
Proof.
  assert (exists name, name ∈ ["node-1"; Sample.longName]
                       /\ Sample.kInstanceNameMaxLength < String.length name) as Hbad.
  { exists Sample.longName. split; [set_solver | unfold Sample.kInstanceNameMaxLength; simpl; lia]. }
  split; [done|]. split; [exact Hbad|].
  apply (HandleBrowse_aborts_batch (IPAddress := string) Sample.CopyString
           Sample.kInstanceNameMaxLength Sample.kNameSize Sample.kTypeSize Sample.defaultService
           ["node-1"; Sample.longName] "_matter._tcp" 7%Z 9%Z); done.
Defined.


(** C5 at a refused data buffer for the first of three keys. *)
Lemma HandleResolve_leaks_first_key_witness :
  7%Z <> 0%Z
  /\ Sample.passesValidation "node-1" "_matter._tcp" (Some "fe80::1") 5540
  /\ Sample.refuse (BufData 0) BufEntries = true
  /\ Sample.refuse (BufData 0) (BufData 0) = false
  /\ leaked (Sample.HandleResolve (Sample.refuse (BufData 0)) "node-1" "_matter._tcp" "host"
               (Some "fe80::1") 5540 (Some Sample.txt) 7 9)
     = [BufKey 0].
Proof.
  split; [done|]. split; [exact sample_passesValidation|]. split; [done|]. split; [done|].
  apply (HandleResolve_leaks_first_key Sample.FromString Sample.CopyString Sample.kInstanceNameMaxLength
           Sample.kDnssdTypeAndProtocolMaxSize Sample.kNameSize Sample.kHostNameSize Sample.kTypeSize
           (Sample.refuse (BufData 0)) "node-1" "_matter._tcp" "host" (Some "fe80::1") 5540%Z
           "D" [56; 52; 48]%Z [("CM", Some [(-1)%Z]); ("T", None)] 7%Z 9%Z
           ltac:(done) sample_passesValidation eq_refl eq_refl).
Defined.

(** The same map with the refusal one slot later: every block is released. *)
Example HandleResolve_later_failure_run :
  leaked (Sample.HandleResolve (Sample.refuse (BufData 1)) "node-1" "_matter._tcp" "host"
            (Some "fe80::1") 5540 (Some Sample.txt) 7 9) = []
  /\ allocated (Sample.HandleResolve (Sample.refuse (BufData 1)) "node-1" "_matter._tcp" "host"
                  (Some "fe80::1") 5540 (Some Sample.txt) 7 9)
     = [BufEntries; BufKey 0; BufData 0; BufKey 1].
Proof. by split. Qed.

End Runs.

(** * Further properties of the codec *)

Section CodecMore.
Import CStr CStrFacts.

(** Decoding an encoding, for any protocol value. *)
Lemma extractProtocol_GetFullType_any (N : nat) (type : string)
    (protocol : DnssdServiceProtocol) :
  String.length type + 1 <= N ->
  extractProtocol N (GetFullType type protocol)
  = inr (type, if decide (protocol = kDnssdProtocolUdp)
               then kDnssdProtocolUdp else kDnssdProtocolTcp).
Proof.
  intros Hfit. unfold GetFullType.
  assert (Nat.leb (String.length type + 1) N = true) as Hb by by apply Nat.leb_le.
  destruct (decide (protocol = kDnssdProtocolUdp)).
  - change kProtocolUdp with (String "." "_udp").
    rewrite extractProtocol_split by done. by rewrite Hb.
  - change kProtocolTcp with (String "." "_tcp").
    rewrite extractProtocol_split by done. by rewrite Hb.
Qed.

(** X1: the encoding determines the type, and determines the protocol up to
    the identification of every non-udp protocol with tcp. *)
Theorem GetFullType_inj (type1 type2 : string) (protocol1 protocol2 : DnssdServiceProtocol) :
  GetFullType type1 protocol1 = GetFullType type2 protocol2 ->
  type1 = type2
  /\ (protocol1 = kDnssdProtocolUdp <-> protocol2 = kDnssdProtocolUdp).
Proof.
  intros Heq.
  assert (String.length type1 + 1 <= String.length type1 + String.length type2 + 1)
    as Hfit1 by lia.
  assert (String.length type2 + 1 <= String.length type1 + String.length type2 + 1)
    as Hfit2 by lia.
  pose proof (extractProtocol_GetFullType_any _ type1 protocol1 Hfit1) as H1.
  pose proof (extractProtocol_GetFullType_any _ type2 protocol2 Hfit2) as H2.
  rewrite Heq, H2 in H1. injection H1 as <- Hp. split; [done|].
  destruct (decide (protocol1 = kDnssdProtocolUdp)),
    (decide (protocol2 = kDnssdProtocolUdp)); done.
Qed.

(** X2: a protocol that is not udp is encoded as tcp, so decoding the
    encoding of (type, unknown) gives (type, tcp) when the type fits; and no
    input decodes to the unknown protocol. *)
Theorem extractProtocol_never_unknown (N : nat) :
  (forall type, String.length type + 1 <= N ->
                extractProtocol N (GetFullType type kDnssdProtocolUnknown)
                = inr (type, kDnssdProtocolTcp))
  /\ (forall serviceType base protocol,
         extractProtocol N serviceType = inr (base, protocol) ->
         protocol <> kDnssdProtocolUnknown).
Proof.
  split.
  - intros type Hfit. by rewrite extractProtocol_GetFullType_any.
  - intros serviceType base protocol. unfold extractProtocol.
    repeat case_match; intros [= <- <-]; done.
Qed.

(** A marker that begins in [x] and ends in the protocol suffix: [x] is the
    marker less its final dot. *)
Lemma marker_across_suffix (x suffix : string) :
  suffix = kProtocolTcp \/ suffix = kProtocolUdp ->
  String.prefix subtypeDelimiter (x +:+ suffix) = true ->
  String.prefix subtypeDelimiter x = true \/ x = "._sub".
Proof.
  intros Hs.
  destruct x as [|c1 [|c2 [|c3 [|c4 [|c5 [|c6 x]]]]]].
  7:{ intros H. left. rewrite prefix_app in H; [done | simpl; lia]. }
  all: destruct Hs as [-> | ->]; unfold subtypeDelimiter, kProtocolTcp, kProtocolUdp;
    cbn [String.append]; rewrite ?prefix_cons;
    repeat (lazymatch goal with
            | |- context [ascii_dec ?a ?b] => destruct (ascii_dec a b); subst; try done
            end).
  all: intros _; by right.
Qed.

Lemma strstr_None_cons (c : ascii) (h n : string) :
  strstr (String c h) n = None ->
  String.prefix n (String c h) = false /\ strstr h n = None.
Proof.
  rewrite strstr_cons. destruct (String.prefix n (String c h)); [done|].
  by destruct (strstr h n).
Qed.

Lemma marker_not_created (type suffix : string) :
  suffix = kProtocolTcp \/ suffix = kProtocolUdp ->
  strstr type subtypeDelimiter = None ->
  (forall a, type <> a +:+ "._sub") ->
  strstr (type +:+ suffix) subtypeDelimiter = None.
Proof.
  intros Hs. induction type as [|c type IH]; intros Hnone Hend.
  - by destruct Hs as [-> | ->].
  - apply strstr_None_cons in Hnone as [Hp Hrest].
    change (String c type +:+ suffix) with (String c (type +:+ suffix)).
    rewrite strstr_cons.
    change (String c (type +:+ suffix)) with (String c type +:+ suffix).
    destruct (String.prefix subtypeDelimiter (String c type +:+ suffix)) eqn:E.
    + destruct (marker_across_suffix _ _ Hs E) as [Hin | Heq]; [congruence|].
      by destruct (Hend "").
    + rewrite IH; [done | done |]. intros a ->. by apply (Hend (String c a)).
Qed.

(** X3: a type that holds no [._sub.] marker and does not end in [._sub]
    is encoded by the subtype-aware encoder exactly as by the plain one. *)
Theorem GetFullTypeWithSubTypes_plain (type : string) (protocol : DnssdServiceProtocol) :
  find type subtypeDelimiter = None ->
  (forall a, type <> a +:+ "._sub") ->
  GetFullTypeWithSubTypes type protocol = GetFullType type protocol.
Proof.
  intros Hnone Hend. unfold GetFullTypeWithSubTypes, find, GetFullType in *.
  rewrite marker_not_created; [done | | done | done].
  destruct (decide (protocol = kDnssdProtocolUdp)); auto.
Qed.

End CodecMore.

(** * Further properties of the synchronous operations *)

Section OperationsMore.
Context {IPAddress InterfaceId : Type}.

Local Abbreviation Ev := (@Event IPAddress InterfaceId).
Local Abbreviation Service := (@DnssdService InterfaceId).

Implicit Types (b : Binding) (sessions : gmap Z Z) (run : list Ev).

(** *** Publish *)

Lemma publishTextEntries_ok (entries : list TextEntry) :
  Forall (fun e => CanCastTo_uint32 (mDataSize e) = true) entries ->
  publishTextEntries entries
  = inr (mKey <$> entries, (fun e => (mData e, mDataSize e)) <$> entries).
Proof.
  induction 1 as [|e rest He _ IH]; [done|].
  simpl. by rewrite He, IH.
Qed.

Lemma publishTextEntries_bad (entries : list TextEntry) :
  Exists (fun e => CanCastTo_uint32 (mDataSize e) = false) entries ->
  publishTextEntries entries = inl CHIP_ERROR_INVALID_ARGUMENT.
Proof.
  induction 1 as [e rest He | e rest _ IH]; simpl.
  - by rewrite He.
  - rewrite IH. by destruct (CanCastTo_uint32 (mDataSize e)).
Qed.

Lemma publish_type_is_full_type (service : Service) :
  mType service +:+ "."
    +:+ (if decide (mProtocol service = kDnssdProtocolUdp) then "_udp" else "_tcp")
  = GetFullType (mType service) (mProtocol service).
Proof. unfold GetFullType. by destruct (decide _). Qed.

(** X4: when [ChipDnssdPublishService] reaches the backend it does so
    once, and the type it passes is the one [GetFullType] builds from the
    record; decoded with a buffer the type fits, that string gives back the
    record's type (and udp or tcp for the protocol). *)
Theorem ChipDnssdPublishService_type b exceptionThrown (service : Service) status run :
  ChipDnssdPublishService (IPAddress := IPAddress) b exceptionThrown (Some service)
  = (status, run) ->
  backendCalls run = []
  \/ exists type keys datas,
      backendCalls run
      = [JPublish (mName service) (mHostName service) type (mPort service) keys datas
           (take (Z.to_nat (mSubTypeSize service)) (mSubTypes service))]
      /\ type = GetFullType (mType service) (mProtocol service)
      /\ forall N, String.length (mType service) + 1 <= N ->
                   extractProtocol N type
                   = inr (mType service,
                          if decide (mProtocol service = kDnssdProtocolUdp)
                          then kDnssdProtocolUdp else kDnssdProtocolTcp).
Proof.
  pose proof (fun N => extractProtocol_GetFullType_any N (mType service)
                         (mProtocol service)) as Hdecode.
  remember (if decide (mProtocol service = kDnssdProtocolUdp)
            then kDnssdProtocolUdp else kDnssdProtocolTcp) as decoded eqn:Hd.
  clear Hd.
  unfold ChipDnssdPublishService, VerifyOrReturnError.
  rewrite publish_type_is_full_type.
  repeat case_match; intros [= <- <-]; try (by left).
  all: right; by eexists _, _, _.
Qed.

(** X5: with the resolver and its publish method bound, a text-entry count,
    a subtype count or the data size of one of the entries to publish that
    does not fit 32 unsigned bits makes [ChipDnssdPublishService] return
    InvalidArgument without any backend call. *)
Theorem ChipDnssdPublishService_rejects b exceptionThrown (service : Service) :
  sResolverObject b && sPublishMethod b = true ->
  CanCastTo_uint32 (mTextEntrySize service) = false
  \/ CanCastTo_uint32 (mSubTypeSize service) = false
  \/ Exists (fun e => CanCastTo_uint32 (mDataSize e) = false)
       (take (Z.to_nat (mTextEntrySize service)) (default [] (mTextEntries service))) ->
  ChipDnssdPublishService (IPAddress := IPAddress) b exceptionThrown (Some service)
  = (CHIP_ERROR_INVALID_ARGUMENT, []).
Proof.
  intros Hbound Hbad. unfold ChipDnssdPublishService, VerifyOrReturnError.
  rewrite Hbound.
  destruct (CanCastTo_uint32 (mTextEntrySize service)); [|done].
  destruct (CanCastTo_uint32 (mSubTypeSize service)); [|done].
  destruct Hbad as [|[|Hbad]]; [done|done|].
  by rewrite publishTextEntries_bad.
Qed.

(** X6: with the resolver and its publish method bound and every size
    fitting 32 unsigned bits, [ChipDnssdPublishService] makes exactly one
    publish call, with the lock released around it.  The call is built, in
    order, from the key of every text entry to publish and from its data
    pointer with its data size, and from the first [mSubTypeSize] subtypes;
    the status only tells whether the call raised. *)
Theorem ChipDnssdPublishService_marshals b exceptionThrown (service : Service) :
  sResolverObject b && sPublishMethod b = true ->
  CanCastTo_uint32 (mTextEntrySize service) = true ->
  CanCastTo_uint32 (mSubTypeSize service) = true ->
  Forall (fun e => CanCastTo_uint32 (mDataSize e) = true)
    (take (Z.to_nat (mTextEntrySize service)) (default [] (mTextEntries service))) ->
  let entries :=
    take (Z.to_nat (mTextEntrySize service)) (default [] (mTextEntries service)) in
  ChipDnssdPublishService (IPAddress := IPAddress) b exceptionThrown (Some service)
  = (if exceptionThrown then CHIP_JNI_ERROR_EXCEPTION_THROWN else CHIP_NO_ERROR,
     StackUnlock
       [EvBackend
          (JPublish (mName service) (mHostName service)
             (GetFullType (mType service) (mProtocol service)) (mPort service)
             (mKey <$> entries)
             ((fun e => (mData e, mDataSize e)) <$> entries)
             (take (Z.to_nat (mSubTypeSize service)) (mSubTypes service)))]).
Proof.
  intros Hbound Hn Hs Hentries entries. subst entries.
  unfold ChipDnssdPublishService, VerifyOrReturnError.
  rewrite Hbound, Hn, Hs, publish_type_is_full_type, publishTextEntries_ok by done.
  by destruct exceptionThrown.
Qed.

(** *** Browse sessions *)

(** X7: [ChipDnssdBrowse] either succeeds, writes the address of the new
    context as the identifier and records the callback under it, leaving
    every other session as it was, or fails, writes no identifier and
    leaves the sessions untouched. *)
Theorem ChipDnssdBrowse_session b envAvailable exceptionThrown newContext sessions
    type protocol callback context status run sessions' identifier :
  ChipDnssdBrowse (IPAddress := IPAddress) (InterfaceId := InterfaceId)
    b envAvailable exceptionThrown newContext sessions type protocol callback context
  = (status, run, sessions', identifier) ->
  (status = CHIP_NO_ERROR
   /\ exists sdCtx,
       newContext = Some sdCtx /\ identifier = Some sdCtx
       /\ sessions' !! sdCtx = Some callback
       /\ (forall other, other <> sdCtx -> sessions' !! other = sessions !! other)
       /\ allocated run = [BufBrowseContext sdCtx])
  \/ (status <> CHIP_NO_ERROR /\ identifier = None /\ sessions' = sessions
      /\ allocated run = []).
Proof.
  unfold ChipDnssdBrowse, VerifyOrReturnError.
  repeat case_match; intros [= <- <- <- <-]; try (by right).
  left. split; [done|]. eexists. split_and!; try done.
  - apply lookup_insert_eq.
  - intros other Hne. by apply lookup_insert_ne.
Qed.

(** X8: stopping a browse undoes it.  After a successful
    [ChipDnssdBrowse] that returned a non-zero identifier not in use before,
    [ChipDnssdStopBrowse] on that identifier (stop method bound, environment
    available) asks the backend to stop the callback the browse was started
    with, releases the context the browse allocated, and leaves the
    sessions as they were before the browse. *)
Theorem ChipDnssdStopBrowse_after_Browse b exceptionThrown exceptionThrown' newContext
    sessions type protocol callback context run sessions' identifier :
  ChipDnssdBrowse (IPAddress := IPAddress) (InterfaceId := InterfaceId)
    b true exceptionThrown newContext sessions type protocol callback context
  = (CHIP_NO_ERROR, run, sessions', Some identifier) ->
  identifier <> 0%Z ->
  sessions !! identifier = None ->
  sStopBrowseMethod b = true ->
  exists run' : list Ev,
    ChipDnssdStopBrowse b true exceptionThrown' sessions' identifier
    = Some (if exceptionThrown' then CHIP_JNI_ERROR_EXCEPTION_THROWN else CHIP_NO_ERROR,
            run', sessions)
    /\ backendCalls run' = [JStopDiscover callback]
    /\ released run' = allocated run.
Proof.
  intros Hbrowse Hnz Hfresh Hstop.
  unfold ChipDnssdBrowse, VerifyOrReturnError in Hbrowse.
  destruct type as [type|]; [|done].
  destruct (negb (bool_decide (callback = 0%Z))); [|done].
  destruct (sBrowserObject b && sBrowseMethod b) eqn:Hb; [|done].
  destruct (sMdnsCallbackObject b); [|done].
  destruct exceptionThrown; [done|].
  destruct newContext as [sdCtx|]; [|done].
  injection Hbrowse as <- <- <-.
  apply andb_prop in Hb as [Hobj _].
  unfold ChipDnssdStopBrowse, VerifyOrReturnError.
  rewrite bool_decide_eq_false_2 by done. simpl. rewrite Hobj, Hstop. simpl.
  rewrite lookup_insert_eq, delete_insert_id by done.
  eexists. split; [reflexivity|]. by split.
Qed.

(** X9: an identifier is good for one stop.  Once [ChipDnssdStopBrowse] has
    gone through to the backend for an identifier, a second call on it (with
    an environment available) reads a destroyed context: it is outside the
    contract of the function. *)
Theorem ChipDnssdStopBrowse_twice b envAvailable exceptionThrown exceptionThrown'
    sessions browseIdentifier status run sessions' :
  ChipDnssdStopBrowse (IPAddress := IPAddress) (InterfaceId := InterfaceId)
    b envAvailable exceptionThrown sessions browseIdentifier
  = Some (status, run, sessions') ->
  backendCalls run <> [] ->
  ChipDnssdStopBrowse (IPAddress := IPAddress) (InterfaceId := InterfaceId)
    b true exceptionThrown' sessions' browseIdentifier = None.
Proof.
  intros Hfirst Hcalls.
  unfold ChipDnssdStopBrowse, VerifyOrReturnError in *.
  destruct (negb (bool_decide (browseIdentifier = 0%Z))); [|by simplify_eq].
  destruct (sBrowserObject b && sStopBrowseMethod b); [|by simplify_eq].
  destruct envAvailable; [|by simplify_eq].
  destruct (sessions !! browseIdentifier) as [callback|]; [|done].
  injection Hfirst as <- <- <-.
  by rewrite lookup_delete_eq.
Qed.

(** *** Failing fast *)

Lemma publishTextEntries_error (entries : list TextEntry) e :
  publishTextEntries entries = inl e -> e = CHIP_ERROR_INVALID_ARGUMENT.
Proof.
  induction entries as [|x rest IH]; simpl; [done|].
  repeat case_match; try congruence. intros [= <-]. by apply IH.
Qed.

(** X10: each of the five operations that need the backend calls it at most
    once, and not at all exactly when it returns InvalidArgument,
    IncorrectState or (browse, stop-browse) the missing-environment error;
    in that case nothing else happens either: the run is empty and the
    sessions are unchanged.  A browse that returns the out-of-memory or the
    exception error has made its call. *)
Theorem operations_fail_fast b exceptionThrown :
  (forall status run,
      ChipDnssdRemoveServices b exceptionThrown = (status, run) ->
      length (backendCalls run) <= 1
      /\ (backendCalls run = [] <-> status = CHIP_ERROR_INCORRECT_STATE)
      /\ (backendCalls run = [] -> run = []))
  /\ (forall (service : option Service) status run,
         ChipDnssdPublishService b exceptionThrown service = (status, run) ->
         length (backendCalls run) <= 1
         /\ (backendCalls run = []
             <-> status = CHIP_ERROR_INVALID_ARGUMENT
                 \/ status = CHIP_ERROR_INCORRECT_STATE)
         /\ (backendCalls run = [] -> run = []))
  /\ (forall (service : option Service) callback context status run,
         ChipDnssdResolve b exceptionThrown service callback context = (status, run) ->
         length (backendCalls run) <= 1
         /\ (backendCalls run = []
             <-> status = CHIP_ERROR_INVALID_ARGUMENT
                 \/ status = CHIP_ERROR_INCORRECT_STATE)
         /\ (backendCalls run = [] -> run = []))
  /\ (forall envAvailable newContext sessions type protocol callback context
             status run sessions' identifier,
         ChipDnssdBrowse b envAvailable exceptionThrown newContext sessions type
           protocol callback context = (status, run, sessions', identifier) ->
         length (backendCalls run) <= 1
         /\ (backendCalls run = []
             <-> status = CHIP_ERROR_INVALID_ARGUMENT
                 \/ status = CHIP_ERROR_INCORRECT_STATE
                 \/ status = CHIP_JNI_ERROR_NO_ENV)
         /\ (backendCalls run = [] -> run = [] /\ sessions' = sessions))
  /\ (forall envAvailable sessions browseIdentifier status run sessions',
         ChipDnssdStopBrowse b envAvailable exceptionThrown sessions browseIdentifier
         = Some (status, run, sessions') ->
         length (backendCalls run) <= 1
         /\ (backendCalls run = []
             <-> status = CHIP_ERROR_INVALID_ARGUMENT
                 \/ status = CHIP_JNI_ERROR_NO_ENV)
         /\ (backendCalls run = [] -> run = [] /\ sessions' = sessions)).
Proof.
  split_and!.
  - intros status run. unfold ChipDnssdRemoveServices, VerifyOrReturnError.
    destruct (sResolverObject b && sRemoveServicesMethod b), exceptionThrown;
      intros [= <- <-]; simpl; split_and!; (lia || naive_solver).
  - intros service status run. unfold ChipDnssdPublishService, VerifyOrReturnError.
    destruct service as [service|]; [|intros [= <- <-]; simpl; naive_solver lia].
    destruct (sResolverObject b && sPublishMethod b);
      [|intros [= <- <-]; simpl; naive_solver lia].
    destruct (CanCastTo_uint32 (mTextEntrySize service));
      [|intros [= <- <-]; simpl; naive_solver lia].
    destruct (CanCastTo_uint32 (mSubTypeSize service));
      [|intros [= <- <-]; simpl; naive_solver lia].
    destruct (publishTextEntries _) as [e|[keys datas]] eqn:Hloop.
    + apply publishTextEntries_error in Hloop as ->.
      intros [= <- <-]; simpl; naive_solver lia.
    + destruct exceptionThrown; intros [= <- <-]; simpl; split_and!; (lia || naive_solver).
  - intros service callback context status run.
    unfold ChipDnssdResolve, VerifyOrReturnError.
    destruct service as [service|]; [|intros [= <- <-]; simpl; naive_solver lia].
    destruct (negb (bool_decide (callback = 0%Z)));
      [|intros [= <- <-]; simpl; naive_solver lia].
    destruct (sResolverObject b && sResolveMethod b);
      [|intros [= <- <-]; simpl; naive_solver lia].
    destruct (sMdnsCallbackObject b); [|intros [= <- <-]; simpl; naive_solver lia].
    destruct exceptionThrown; intros [= <- <-]; simpl; split_and!; (lia || naive_solver).
  - intros envAvailable newContext sessions type protocol callback context
      status run sessions' identifier.
    unfold ChipDnssdBrowse, VerifyOrReturnError.
    destruct type as [type|]; [|intros [= <- <- <- <-]; simpl; naive_solver lia].
    destruct (negb (bool_decide (callback = 0%Z)));
      [|intros [= <- <- <- <-]; simpl; naive_solver lia].
    destruct (sBrowserObject b && sBrowseMethod b);
      [|intros [= <- <- <- <-]; simpl; naive_solver lia].
    destruct (sMdnsCallbackObject b);
      [|intros [= <- <- <- <-]; simpl; naive_solver lia].
    destruct envAvailable; [|intros [= <- <- <- <-]; simpl; naive_solver lia].
    destruct exceptionThrown; [intros [= <- <- <- <-]; simpl; naive_solver lia|].
    destruct newContext; intros [= <- <- <- <-]; simpl; naive_solver lia.
  - intros envAvailable sessions browseIdentifier status run sessions'.
    unfold ChipDnssdStopBrowse, VerifyOrReturnError.
    destruct (negb (bool_decide (browseIdentifier = 0%Z)));
      [|intros [= <- <- <-]; simpl; naive_solver lia].
    destruct (sBrowserObject b && sStopBrowseMethod b);
      [|intros [= <- <- <-]; simpl; naive_solver lia].
    destruct envAvailable; [|intros [= <- <- <-]; simpl; naive_solver lia].
    destruct (sessions !! browseIdentifier); [|done].
    destruct exceptionThrown; intros [= <- <- <-]; simpl; naive_solver lia.
Qed.

(** X11: entered with the stack lock held, every one of the five
    operations returns with it held: the three that release it take it
    again before they return, whether or not the backend call raised. *)
Theorem operations_restore_lock b exceptionThrown :
  lockAfter true (ChipDnssdRemoveServices (IPAddress := IPAddress)
                    (InterfaceId := InterfaceId) b exceptionThrown).2 = true
  /\ (forall service : option Service,
         lockAfter true (ChipDnssdPublishService (IPAddress := IPAddress)
                           b exceptionThrown service).2 = true)
  /\ (forall (service : option Service) callback context,
         lockAfter true (ChipDnssdResolve (IPAddress := IPAddress)
                           b exceptionThrown service callback context).2 = true)
  /\ (forall envAvailable newContext sessions type protocol callback context,
         lockAfter true
           (ChipDnssdBrowse (IPAddress := IPAddress) (InterfaceId := InterfaceId)
              b envAvailable exceptionThrown newContext sessions type protocol
              callback context).1.1.2 = true)
  /\ (forall envAvailable sessions browseIdentifier status run sessions',
         ChipDnssdStopBrowse (IPAddress := IPAddress) (InterfaceId := InterfaceId)
           b envAvailable exceptionThrown sessions browseIdentifier
         = Some (status, run, sessions') ->
         lockAfter true run = true).
Proof.
  split_and!.
  - unfold ChipDnssdRemoveServices, VerifyOrReturnError.
    destruct (sResolverObject b && sRemoveServicesMethod b), exceptionThrown;
      reflexivity.
  - intros service. unfold ChipDnssdPublishService, VerifyOrReturnError.
    destruct service as [service|]; [|done].
    destruct (sResolverObject b && sPublishMethod b); [|done].
    destruct (CanCastTo_uint32 (mTextEntrySize service)); [|done].
    destruct (CanCastTo_uint32 (mSubTypeSize service)); [|done].
    destruct (publishTextEntries _) as [e|[keys datas]]; [done|].
    destruct exceptionThrown; reflexivity.
  - intros service callback context. unfold ChipDnssdResolve, VerifyOrReturnError.
    destruct service as [service|]; [|done].
    destruct (negb (bool_decide (callback = 0%Z))); [|done].
    destruct (sResolverObject b && sResolveMethod b); [|done].
    destruct (sMdnsCallbackObject b); [|done].
    destruct exceptionThrown; reflexivity.
  - intros envAvailable newContext sessions type protocol callback context.
    unfold ChipDnssdBrowse, VerifyOrReturnError.
    destruct type as [type|]; [|done].
    destruct (negb (bool_decide (callback = 0%Z))); [|done].
    destruct (sBrowserObject b && sBrowseMethod b); [|done].
    destruct (sMdnsCallbackObject b); [|done].
    destruct envAvailable; [|done].
    destruct exceptionThrown; [done|]. destruct newContext; reflexivity.
  - intros envAvailable sessions browseIdentifier status run sessions'.
    unfold ChipDnssdStopBrowse, VerifyOrReturnError.
    destruct (negb (bool_decide (browseIdentifier = 0%Z))); [|by intros [= <- <- <-]].
    destruct (sBrowserObject b && sStopBrowseMethod b); [|by intros [= <- <- <-]].
    destruct envAvailable; [|by intros [= <- <- <-]].
    destruct (sessions !! browseIdentifier); [|done].
    by intros [= <- <- <-].
Qed.

(** *** Binding *)

(** X12: after [InitializeWithObjects], a bound method id means that all
    three object references are bound: the method ids are looked up only
    once the three references are initialised and both classes found. *)
Theorem InitializeWithObjects_methods_need_objects (jni : JniLookups) :
  let b := InitializeWithObjects jni in
  sResolveMethod b || sBrowseMethod b || sStopBrowseMethod b
    || sGetTextEntryKeysMethod b || sGetTextEntryDataMethod b
    || sPublishMethod b || sRemoveServicesMethod b = true ->
  sResolverObject b = true /\ sBrowserObject b = true /\ sMdnsCallbackObject b = true.
Proof.
  unfold InitializeWithObjects, VerifyOrReturnError.
  destruct (resolverInit jni), (browserInit jni), (mdnsCallbackInit jni),
    (browserClassFound jni), (resolverClassFound jni); simpl; done.
Qed.

(** X13: an operation is accepted after [InitializeWithObjects] exactly
    when all three references were initialised, both classes were found and
    the operation's own method was found.  So a browser or callback object
    that fails to bind disables remove-services and publish as well, which
    use neither. *)
Theorem operations_after_InitializeWithObjects (jni : JniLookups) exceptionThrown :
  let bound := resolverInit jni && browserInit jni && mdnsCallbackInit jni
               && browserClassFound jni && resolverClassFound jni in
  let b := InitializeWithObjects jni in
  ((ChipDnssdRemoveServices (IPAddress := IPAddress) (InterfaceId := InterfaceId)
      b exceptionThrown).1 = CHIP_ERROR_INCORRECT_STATE
   <-> bound && foundRemoveServices jni = false)
  /\ (forall service : Service,
         (ChipDnssdPublishService (IPAddress := IPAddress) b exceptionThrown
            (Some service)).1 = CHIP_ERROR_INCORRECT_STATE
         <-> bound && foundPublish jni = false)
  /\ (forall (service : Service) callback context,
         callback <> 0%Z ->
         (ChipDnssdResolve (IPAddress := IPAddress) b exceptionThrown (Some service)
            callback context).1 = CHIP_ERROR_INCORRECT_STATE
         <-> bound && foundResolve jni = false).
Proof.
  intros bound b. subst bound b.
  unfold InitializeWithObjects, VerifyOrReturnError. split_and!.
  - unfold ChipDnssdRemoveServices, VerifyOrReturnError.
    destruct (resolverInit jni), (browserInit jni), (mdnsCallbackInit jni),
      (browserClassFound jni), (resolverClassFound jni), (foundRemoveServices jni),
      exceptionThrown; simpl; naive_solver.
  - intros service. unfold ChipDnssdPublishService, VerifyOrReturnError.
    destruct (resolverInit jni), (browserInit jni), (mdnsCallbackInit jni),
      (browserClassFound jni), (resolverClassFound jni), (foundPublish jni);
      simpl; try naive_solver.
    destruct (CanCastTo_uint32 (mTextEntrySize service)); [|naive_solver].
    destruct (CanCastTo_uint32 (mSubTypeSize service)); [|naive_solver].
    destruct (publishTextEntries _) as [e|[keys datas]] eqn:Hloop.
    + apply publishTextEntries_error in Hloop as ->. naive_solver.
    + destruct exceptionThrown; naive_solver.
  - intros service callback context Hcb. unfold ChipDnssdResolve, VerifyOrReturnError.
    rewrite bool_decide_eq_false_2 by done.
    destruct (resolverInit jni), (browserInit jni), (mdnsCallbackInit jni),
      (browserClassFound jni), (resolverClassFound jni), (foundResolve jni),
      exceptionThrown; simpl; naive_solver.
Qed.

End OperationsMore.

(** * Further properties of the result entry points *)

Section ResultsMore.
Context {IPAddress InterfaceId : Type}.
Variable FromString : string -> option (IPAddress * InterfaceId).
Variable CopyString : nat -> string -> string.
Variable kInstanceNameMaxLength : nat.
Variable kDnssdTypeAndProtocolMaxSize : nat.
Variable kNameSize kHostNameSize kTypeSize : nat.
Variable defaultService : @DnssdService InterfaceId.

Local Abbreviation Ev := (@Event IPAddress InterfaceId).
Local Abbreviation Service := (@DnssdService InterfaceId).
Local Abbreviation HandleResolve' :=
  (HandleResolve FromString CopyString kInstanceNameMaxLength
     kDnssdTypeAndProtocolMaxSize kNameSize kHostNameSize kTypeSize).
Local Abbreviation HandleBrowse' :=
  (HandleBrowse (IPAddress := IPAddress) CopyString kInstanceNameMaxLength
     kNameSize kTypeSize defaultService).
Local Abbreviation valid :=
  (passesValidation FromString kInstanceNameMaxLength kDnssdTypeAndProtocolMaxSize
     kTypeSize).

(** *** Resolve results *)

(** A result with a non-zero handle either passes validation or is answered
    by one error dispatch and nothing else. *)
Lemma HandleResolve_cases allocOk instanceName serviceType hostName address port
    textEntries callbackHandle contextHandle :
  callbackHandle <> 0%Z ->
  valid instanceName serviceType address port
  \/ (~ valid instanceName serviceType address port
      /\ exists error,
          HandleResolve' allocOk instanceName serviceType hostName address port
            textEntries callbackHandle contextHandle
          = resolveDispatch callbackHandle contextHandle error None None
          /\ (error = CHIP_ERROR_UNKNOWN_RESOURCE_ID \/ error = CHIP_ERROR_INVALID_ARGUMENT)
          /\ (error = CHIP_ERROR_UNKNOWN_RESOURCE_ID <-> address = None \/ port = 0%Z)).
Proof.
  intros Hcb. unfold HandleResolve, VerifyOrReturnError, passesValidation.
  rewrite (bool_decide_eq_false_2 (callbackHandle = 0%Z)) by done. simpl negb. cbv iota.
  destruct address as [jniAddress|].
  2:{ right. split; [by intros (_ & _ & _ & _ & (? & ? & _) & _)|].
      eexists. split; [done|]. naive_solver. }
  destruct (decide (port = 0%Z)) as [->|Hport].
  { right. split; [by intros (? & _)|]. eexists. split; [done|]. naive_solver. }
  rewrite (bool_decide_eq_false_2 (port = 0%Z)) by done. simpl negb. cbv iota.
  destruct (String.length instanceName <=? kInstanceNameMaxLength)%nat eqn:Hname.
  2:{ right. apply Nat.leb_gt in Hname.
      split; [intros (_ & ? & _); lia|]. eexists. split; [done|]. naive_solver. }
  destruct (String.length serviceType <=? kDnssdTypeAndProtocolMaxSize)%nat eqn:Htype.
  2:{ right. apply Nat.leb_gt in Htype.
      split; [intros (_ & _ & ? & _); lia|]. eexists. split; [done|]. naive_solver. }
  destruct (CanCastTo_uint16 port) eqn:Hcast.
  2:{ right. split; [by intros (_ & _ & _ & ? & _)|].
      eexists. split; [done|]. naive_solver. }
  destruct (FromString jniAddress) as [[ipAddress iface]|] eqn:Hip.
  2:{ right. split.
      - intros (_ & _ & _ & _ & (a & [= <-] & [? Hsome]) & _). congruence.
      - eexists. split; [done|]. naive_solver. }
  destruct (extractProtocol kTypeSize serviceType) as [e|decoded] eqn:Hdec.
  { right. split; [by intros (_ & _ & _ & _ & _ & (? & ?))|].
    eexists. split; [done|]. naive_solver. }
  left. apply Nat.leb_le in Hname, Htype.
  split_and!; try done; by eauto.
Qed.

(** X14: the one dispatch of a resolve completion reports success exactly
    when the result passes validation; otherwise the error is
    UnknownResourceId exactly when the address is absent or the port is
    zero, and InvalidArgument in every other case.  No allocation failure
    and no other error code is ever reported. *)
Theorem HandleResolve_outcome allocOk instanceName serviceType hostName address port
    textEntries callbackHandle contextHandle :
  callbackHandle <> 0%Z ->
  exists service addresses error,
    resolveCallbacks
      (HandleResolve' allocOk instanceName serviceType hostName address port
         textEntries callbackHandle contextHandle)
    = [(callbackHandle, contextHandle, service, addresses, error)]
    /\ (error = CHIP_NO_ERROR <-> valid instanceName serviceType address port)
    /\ (error = CHIP_ERROR_UNKNOWN_RESOURCE_ID <-> address = None \/ port = 0%Z)
    /\ (error = CHIP_NO_ERROR \/ error = CHIP_ERROR_UNKNOWN_RESOURCE_ID
        \/ error = CHIP_ERROR_INVALID_ARGUMENT).
Proof.
  intros Hcb.
  destruct (HandleResolve_cases allocOk instanceName serviceType hostName address port
              textEntries callbackHandle contextHandle Hcb)
    as [Hvalid | (Hinvalid & error & -> & Hcode & Hunknown)].
  - destruct (HandleResolve_valid FromString CopyString kInstanceNameMaxLength
                kDnssdTypeAndProtocolMaxSize kNameSize kHostNameSize kTypeSize
                allocOk instanceName serviceType hostName address port
                textEntries callbackHandle contextHandle Hcb Hvalid)
      as (record & ipAddress & _ & _ & ->).
    exists (Some record), [ipAddress], CHIP_NO_ERROR. split.
    + rewrite !resolveCallbacks_app.
      rewrite (resolveCallbacks_memoryOnly _ (marshalTextEntries_memoryOnly _ _)).
      by rewrite (resolveCallbacks_memoryOnly _ (releaseTextEntries_memoryOnly _ _)).
    + split_and!; [done| |by left].
      split; [done|]. destruct Hvalid as (Hport & _ & _ & _ & (a & -> & _) & _).
      by intros [|].
  - exists None, [], error. split; [done|].
    split_and!; [|done|naive_solver]. split; [|done].
    intros ->. by destruct Hcode.
Qed.

(** X15: a result that fails validation allocates nothing and releases
    nothing, whatever TXT map it carries and whatever the allocator would
    answer: its run is the error dispatch, under the stack lock, alone. *)
Theorem HandleResolve_invalid_allocates_nothing allocOk instanceName serviceType hostName
    address port textEntries callbackHandle contextHandle :
  callbackHandle <> 0%Z ->
  ~ valid instanceName serviceType address port ->
  exists error,
    HandleResolve' allocOk instanceName serviceType hostName address port
      textEntries callbackHandle contextHandle
    = [EvLockChipStack;
       EvResolveCallback callbackHandle contextHandle None [] error;
       EvUnlockChipStack]
    /\ error <> CHIP_NO_ERROR
    /\ allocated
         (HandleResolve' allocOk instanceName serviceType hostName address port
            textEntries callbackHandle contextHandle) = []
    /\ released
         (HandleResolve' allocOk instanceName serviceType hostName address port
            textEntries callbackHandle contextHandle) = [].
Proof.
  intros Hcb Hinvalid.
  destruct (HandleResolve_cases allocOk instanceName serviceType hostName address port
              textEntries callbackHandle contextHandle Hcb)
    as [Hvalid | (_ & error & -> & Hcode & _)]; [done|].
  exists error. split_and!; try done. by destruct Hcode as [-> | ->].
Qed.

Lemma firstFailure_none allocOk i (keys : TextEntryMap) :
  (forall b, allocOk b = true) -> firstFailure allocOk i keys = None.
Proof.
  intros Hok. revert i. induction keys as [|[key datas] rest IH]; intros i; [done|].
  simpl. by rewrite Hok, andb_false_r, IH.
Qed.

Lemma jbyte_to_uint8_range (v : Z) : (0 <= jbyte_to_uint8 v < 256)%Z.
Proof. unfold jbyte_to_uint8. apply Z.mod_pos_bound. lia. Qed.

(** X16: when a result passes validation and the allocator serves every
    request, the record handed to the callback carries one TXT entry per key
    of the map, in the order of the keys: the entry has the key; for a key
    without data it has a null data pointer and size 0; for a key with data
    it has a buffer of the same length whose bytes are the Java bytes
    reduced modulo 256, all within 0..255. *)
Theorem HandleResolve_text_entries allocOk instanceName serviceType hostName address port
    (keys : TextEntryMap) callbackHandle contextHandle :
  callbackHandle <> 0%Z ->
  valid instanceName serviceType address port ->
  (forall b, allocOk b = true) ->
  exists (record : Service) (ipAddress : IPAddress),
    resolveCallbacks
      (HandleResolve' allocOk instanceName serviceType hostName address port
         (Some keys) callbackHandle contextHandle)
    = [(callbackHandle, contextHandle, Some record, [ipAddress], CHIP_NO_ERROR)]
    /\ mTextEntrySize record = Z.of_nat (length keys)
    /\ length (textEntriesOf record) = length keys
    /\ forall i key datas,
        keys !! i = Some (key, datas) ->
        exists e,
          textEntriesOf record !! i = Some e
          /\ mKey e = Some key
          /\ match datas with
             | None => mData e = None /\ mDataSize e = 0%Z
             | Some jnidata =>
                 exists data,
                   mData e = Some data
                   /\ mDataSize e = Z.of_nat (length jnidata)
                   /\ length data = length jnidata
                   /\ Forall (fun u => (0 <= u < 256)%Z) data
                   /\ forall j v, jnidata !! j = Some v ->
                                  data !! j = Some (v mod 256)%Z
             end.
Proof.
  intros Hcb Hvalid Hok.
  destruct (HandleResolve_valid FromString CopyString kInstanceNameMaxLength
              kDnssdTypeAndProtocolMaxSize kNameSize kHostNameSize kTypeSize
              allocOk instanceName serviceType hostName address port
              (Some keys) callbackHandle contextHandle Hcb Hvalid)
    as (record & ipAddress & Hentries & Hsize & ->).
  rewrite marshalTextEntries_run, firstFailure_none in Hentries, Hsize by done.
  cbn [fst snd] in Hentries, Hsize.
  assert (textEntriesOf record = builtEntry <$> keys) as Htxt.
  { unfold textEntriesOf. rewrite Hentries, Hsize, Nat2Z.id. cbn [from_option id].
    apply take_ge. by rewrite length_fmap. }
  exists record, ipAddress. split_and!.
  - rewrite !resolveCallbacks_app.
    rewrite (resolveCallbacks_memoryOnly _ (marshalTextEntries_memoryOnly _ _)).
    by rewrite (resolveCallbacks_memoryOnly _ (releaseTextEntries_memoryOnly _ _)).
  - done.
  - by rewrite Htxt, length_fmap.
  - intros i key datas Hi. exists (builtEntry (key, datas)).
    unfold TextEntryMap in *.
    rewrite Htxt, list_lookup_fmap, Hi. split_and!; [done|done|].
    destruct datas as [jnidata|]; [|done].
    exists (jbyte_to_uint8 <$> jnidata). split_and!; try done.
    + by rewrite length_fmap.
    + apply Forall_fmap, Forall_forall. intros v _. apply jbyte_to_uint8_range.
    + intros j v Hj. by rewrite list_lookup_fmap, Hj.
Qed.

(** X17: whatever the inputs and whatever the allocator refuses,
    [HandleResolve] releases no block twice, releases only blocks it
    allocated, and makes all its allocations before the callback runs. *)
Theorem HandleResolve_release_safe allocOk instanceName serviceType hostName address port
    textEntries callbackHandle contextHandle :
  let run := HandleResolve' allocOk instanceName serviceType hostName address port
               textEntries callbackHandle contextHandle in
  NoDup (released run)
  /\ released run ⊆ allocated run
  /\ allocatedBeforeCallback run = allocated run.
Proof.
  intros run.
  destruct (decide (callbackHandle = 0%Z)) as [Hz|Hcb].
  { subst run. unfold HandleResolve, VerifyOrReturnError.
    rewrite bool_decide_eq_true_2 by done. simpl. split_and!; [constructor|done|done]. }
  destruct (HandleResolve_cases allocOk instanceName serviceType hostName address port
              textEntries callbackHandle contextHandle Hcb)
    as [Hvalid | (_ & error & Hrun & _)].
  2:{ subst run. rewrite Hrun. simpl. split_and!; [constructor|done|done]. }
  assert (marshalTextEntries (IPAddress := IPAddress) (InterfaceId := InterfaceId)
            allocOk textEntries = ([], None, 0%Z) ->
          NoDup (released run) /\ released run ⊆ allocated run
          /\ allocatedBeforeCallback run = allocated run) as Hnothing.
  { intros Hm. subst run.
    destruct (HandleResolve_valid FromString CopyString kInstanceNameMaxLength
                kDnssdTypeAndProtocolMaxSize kNameSize kHostNameSize kTypeSize
                allocOk instanceName serviceType hostName address port
                textEntries callbackHandle contextHandle Hcb Hvalid)
      as (record & ipAddress & _ & _ & ->).
    rewrite Hm. simpl. split_and!; [constructor|done|done]. }
  destruct textEntries as [keys|]; [|by apply Hnothing].
  destruct (allocOk BufEntries) eqn:Hok.
  2:{ apply Hnothing. unfold marshalTextEntries. by rewrite Hok. }
  clear Hnothing.
  destruct (HandleResolve_blocks FromString CopyString kInstanceNameMaxLength
              kDnssdTypeAndProtocolMaxSize kNameSize kHostNameSize kTypeSize
              allocOk instanceName serviceType hostName address port
              keys callbackHandle contextHandle Hcb Hvalid Hok) as [Hbefore Hblocks].
  fold run in Hbefore, Hblocks.
  destruct (decide (firstFailure allocOk 0 keys = Some 0)) as [Hfirst|Hfirst].
  - rewrite Hfirst in Hblocks. destruct Hblocks as [Ha Hr].
    rewrite Hbefore, Ha, Hr. split_and!; [apply NoDup_singleton | set_solver | done].
  - destruct (HandleResolve_releases_all FromString CopyString kInstanceNameMaxLength
                kDnssdTypeAndProtocolMaxSize kNameSize kHostNameSize kTypeSize
                allocOk instanceName serviceType hostName address port
                keys callbackHandle contextHandle Hcb Hvalid Hok Hfirst)
      as (Hperm & Hnodup & _).
    fold run in Hperm, Hnodup. split_and!; [done| |done].
    intros x Hx. rewrite <- Hbefore. by rewrite <- Hperm.
Qed.

(** *** Browse results *)

Lemma alter_next_service (f : Service -> Service) (done_ rest : list Service) x :
  alter f (length done_) (done_ ++ x :: rest) = done_ ++ f x :: rest.
Proof. by rewrite <- (Nat.add_0_r (length done_)), alter_app_r. Qed.

(** The browse loop in closed form, for names within the limit and a type
    that decodes. *)
Lemma fillServices_run serviceType i (instanceName : list string)
    (done_ : list Service) type protocol :
  length done_ = i ->
  Forall (fun name => String.length name <= kInstanceNameMaxLength) instanceName ->
  extractProtocol kTypeSize serviceType = inr (type, protocol) ->
  fillServices CopyString kInstanceNameMaxLength kNameSize kTypeSize serviceType i
    instanceName (done_ ++ replicate (length instanceName) defaultService)
  = inr (done_
           ++ ((fun name => setNameTypeProtocol (CopyString kNameSize name) type protocol
                              defaultService) <$> instanceName)).
Proof.
  intros Hlen Hnames Hdec. revert i done_ Hlen.
  induction Hnames as [|name rest Hname _ IH]; intros i done_ Hlen.
  - simpl. by rewrite !app_nil_r.
  - subst i. cbn [length replicate fillServices].
    apply Nat.leb_le in Hname as ->. rewrite Hdec. simpl negb. cbv iota.
    rewrite alter_next_service.
    rewrite (cons_middle _ done_), app_assoc.
    rewrite IH by (rewrite length_app; simpl; lia).
    by rewrite <- app_assoc.
Qed.

Lemma fillServices_length serviceType i (instanceName : list string)
    (service filled : list Service) :
  fillServices CopyString kInstanceNameMaxLength kNameSize kTypeSize serviceType i
    instanceName service = inr filled ->
  length filled = length service.
Proof.
  revert i service. induction instanceName as [|name rest IH]; intros i service; simpl.
  - by intros [= <-].
  - repeat case_match; try done. intros Hrest%IH. by rewrite length_alter in Hrest.
Qed.

(** X18: a batch delivered with a non-zero handle, whose names are all
    within the limit and whose type decodes (or which is empty, in which
    case the type is not looked at), is answered by this run: the array is
    allocated, the callback is invoked once under the stack lock with no
    error, the final-browse flag set and one record per name, in order,
    carrying the copied name and the decoded type and protocol, and the
    array is released. *)
Theorem HandleBrowse_delivers (instanceName : list string) serviceType type protocol
    callbackHandle contextHandle :
  callbackHandle <> 0%Z ->
  Forall (fun name => String.length name <= kInstanceNameMaxLength) instanceName ->
  instanceName = [] \/ extractProtocol kTypeSize serviceType = inr (type, protocol) ->
  HandleBrowse' instanceName serviceType callbackHandle contextHandle
  = [EvAlloc BufServices;
     EvLockChipStack;
     EvBrowseCallback callbackHandle contextHandle
       (Some ((fun name => setNameTypeProtocol (CopyString kNameSize name) type protocol
                             defaultService) <$> instanceName))
       (Z.of_nat (length instanceName)) true CHIP_NO_ERROR;
     EvUnlockChipStack;
     EvFree BufServices].
Proof.
  intros Hcb Hnames Htype. unfold HandleBrowse, VerifyOrReturnError.
  rewrite bool_decide_eq_false_2 by done. simpl negb. cbv iota.
  destruct Htype as [-> | Hdec]; [done|].
  pose proof (fillServices_run serviceType 0 instanceName [] type protocol
                eq_refl Hnames Hdec) as Hfill.
  rewrite !app_nil_l in Hfill. by rewrite Hfill.
Qed.

(** X19: every batch delivered with a non-zero handle is answered by
    exactly one dispatch with the final-browse flag set.  It carries an
    error exactly when some name is over-length or the batch is not empty
    and its type does not decode; the error is InvalidArgument, with no
    array and size zero, and the array allocated for the batch is then never
    released.  Otherwise it carries as many records as names and the array
    is released. *)
Theorem HandleBrowse_outcome (instanceName : list string) serviceType
    callbackHandle contextHandle :
  callbackHandle <> 0%Z ->
  let run := HandleBrowse' instanceName serviceType callbackHandle contextHandle in
  let rejected :=
    Exists (fun name => kInstanceNameMaxLength < String.length name) instanceName
    \/ (instanceName <> [] /\ forall decoded,
           extractProtocol kTypeSize serviceType <> inr decoded) in
  (rejected
   /\ browseCallbacks run
      = [(callbackHandle, contextHandle, None, 0%Z, true, CHIP_ERROR_INVALID_ARGUMENT)]
   /\ leaked run = [BufServices])
  \/ (~ rejected
      /\ (exists service,
             browseCallbacks run
             = [(callbackHandle, contextHandle, Some service,
                 Z.of_nat (length instanceName), true, CHIP_NO_ERROR)]
             /\ length service = length instanceName)
      /\ leaked run = []).
Proof.
  intros Hcb run rejected. subst run.
  unfold HandleBrowse, VerifyOrReturnError.
  rewrite bool_decide_eq_false_2 by done. simpl negb. cbv iota.
  destruct (fillServices _ _ _ _ _ _ _ _) as [e|service] eqn:Hfill.
  - left. apply fillServices_error in Hfill as He. subst e. split; [|done].
    subst rejected.
    destruct (decide (Exists (fun name => kInstanceNameMaxLength < String.length name)
                        instanceName)) as [|Hnone]; [by left|].
    right. apply not_Exists_Forall in Hnone; [|intros name; apply _].
    destruct instanceName as [|name rest]; [done|]. split; [done|].
    intros decoded Hdec. destruct decoded as [type protocol].
    assert (Forall (fun name => String.length name <= kInstanceNameMaxLength)
              (name :: rest)) as Hnames.
    { eapply Forall_impl; [exact Hnone|]. simpl. intros; lia. }
    pose proof (fillServices_run serviceType 0 (name :: rest) [] type protocol
                  eq_refl Hnames Hdec) as Hrun.
    rewrite !app_nil_l in Hrun. by rewrite Hrun in Hfill.
  - right. apply fillServices_length in Hfill as Hlen.
    rewrite length_replicate in Hlen. split_and!; [|by exists service|done].
    subst rejected. intros [Hlong | [Hne Hdec]].
    + apply Exists_exists in Hlong as (name & Hin & Hlong).
      rewrite (fillServices_over_length CopyString kInstanceNameMaxLength kNameSize
                 kTypeSize) in Hfill; [done|]. by exists name.
    + destruct instanceName as [|name rest]; [done|]. simpl in Hfill.
      destruct (negb _); [done|].
      destruct (extractProtocol kTypeSize serviceType) as [|decoded] eqn:E; [done|].
      by apply (Hdec decoded).
Qed.

(** *** The stack lock on the result paths *)

Lemma lock_skips_memory (r r' : list Ev) held :
  Forall memoryOnly r ->
  callbacksUnderLock held (r ++ r') = callbacksUnderLock held r'
  /\ lockAfter held (r ++ r') = lockAfter held r'.
Proof.
  induction 1 as [|ev r Hev _ IH]; [done|].
  destruct ev; simpl in Hev; try done; exact IH.
Qed.

Lemma lock_memory_only (r : list Ev) held :
  Forall memoryOnly r ->
  callbacksUnderLock held r = true /\ lockAfter held r = held.
Proof.
  intros Hr. destruct (lock_skips_memory r [] held Hr) as [H1 H2].
  by rewrite app_nil_r in H1, H2.
Qed.

(** X20: on both result paths every callback is invoked with the stack
    lock held, whatever the state of the lock when the backend calls in; and
    a delivery that arrives without the lock, as one from a backend thread
    does, leaves without it. *)
Theorem results_lock_discipline (held : bool) :
  (forall allocOk instanceName serviceType hostName address port textEntries
          callbackHandle contextHandle,
      let run := HandleResolve' allocOk instanceName serviceType hostName address port
                   textEntries callbackHandle contextHandle in
      callbacksUnderLock held run = true /\ lockAfter false run = false)
  /\ (forall instanceName serviceType callbackHandle contextHandle,
         let run := HandleBrowse' instanceName serviceType callbackHandle contextHandle in
         callbacksUnderLock held run = true /\ lockAfter false run = false).
Proof.
  split.
  - intros allocOk instanceName serviceType hostName address port textEntries
      callbackHandle contextHandle run. subst run.
    destruct (decide (callbackHandle = 0%Z)) as [Hz|Hcb].
    { unfold HandleResolve, VerifyOrReturnError.
      by rewrite bool_decide_eq_true_2 by done. }
    destruct (HandleResolve_cases allocOk instanceName serviceType hostName address port
                textEntries callbackHandle contextHandle Hcb)
      as [Hvalid | (_ & error & -> & _)]; [|done].
    destruct (HandleResolve_valid FromString CopyString kInstanceNameMaxLength
                kDnssdTypeAndProtocolMaxSize kNameSize kHostNameSize kTypeSize
                allocOk instanceName serviceType hostName address port
                textEntries callbackHandle contextHandle Hcb Hvalid)
      as (record & ipAddress & _ & _ & ->).
    pose proof (marshalTextEntries_memoryOnly (IPAddress := IPAddress)
                  (InterfaceId := InterfaceId) allocOk textEntries) as Hallocs.
    destruct (marshalTextEntries allocOk textEntries) as [[allocs entries] n].
    cbn [fst snd] in *.
    destruct (lock_skips_memory allocs
                (resolveDispatch callbackHandle contextHandle CHIP_NO_ERROR
                   (Some record) (Some ipAddress) ++ releaseTextEntries entries n)
                held Hallocs) as [-> _].
    destruct (lock_skips_memory allocs
                (resolveDispatch callbackHandle contextHandle CHIP_NO_ERROR
                   (Some record) (Some ipAddress) ++ releaseTextEntries entries n)
                false Hallocs) as [_ ->].
    destruct (lock_memory_only _ false
                (releaseTextEntries_memoryOnly (IPAddress := IPAddress)
                   (InterfaceId := InterfaceId) entries n)) as [Hc Hl].
    split; simpl; [exact Hc | exact Hl].
  - intros instanceName serviceType callbackHandle contextHandle run. subst run.
    unfold HandleBrowse, VerifyOrReturnError.
    destruct (negb (bool_decide (callbackHandle = 0%Z))); [|done].
    by destruct (fillServices _ _ _ _ _ _ _ _).
Qed.

End ResultsMore.

(** * Concrete runs of the further properties *)

Section RunsMore.

(** X1 at two spellings of one encoding. *)
Lemma GetFullType_inj_witness :
  GetFullType "_matter" kDnssdProtocolTcp = GetFullType "_matter" kDnssdProtocolUnknown
  /\ "_matter" = "_matter"
  /\ (kDnssdProtocolTcp = kDnssdProtocolUdp <-> kDnssdProtocolUnknown = kDnssdProtocolUdp).
Proof.
  split; [reflexivity|].
  apply (GetFullType_inj "_matter" "_matter" kDnssdProtocolTcp kDnssdProtocolUnknown).
  reflexivity.
Defined.

(** X2 at ["_matter"] with a 32-byte buffer. *)
Lemma extractProtocol_never_unknown_witness :
  String.length "_matter" + 1 <= 32
  /\ extractProtocol 32 (GetFullType "_matter" kDnssdProtocolUnknown)
     = inr ("_matter", kDnssdProtocolTcp)
  /\ kDnssdProtocolUdp <> kDnssdProtocolUnknown.
Proof.
  split; [simpl; lia|]. split.
  - apply (proj1 (extractProtocol_never_unknown 32) "_matter"). simpl; lia.
  - apply (proj2 (extractProtocol_never_unknown 32) "_matterc._udp" "_matterc").
    reflexivity.
Defined.

(** X3 at ["_matter"], udp. *)
Lemma GetFullTypeWithSubTypes_plain_witness :
  CStr.find "_matter" subtypeDelimiter = None
  /\ (forall a, "_matter" <> a +:+ "._sub")
  /\ GetFullTypeWithSubTypes "_matter" kDnssdProtocolUdp = "_matter._udp".
Proof.
  assert (forall a, "_matter" <> a +:+ "._sub") as Hend.
  { intros a Ha. pose proof (f_equal String.length Ha) as Hl.
    rewrite CStrFacts.length_app in Hl. simpl in Hl.
    destruct a as [|c1 [|c2 [|c3 a]]]; simpl in *; try lia.
    by simplify_eq. }
  split; [reflexivity|]. split; [exact Hend|].
  exact (GetFullTypeWithSubTypes_plain "_matter" kDnssdProtocolUdp eq_refl Hend).
Defined.

(** X4 at a publish with everything bound. *)
Lemma ChipDnssdPublishService_type_witness :
  exists status (run : list Sample.Ev),
    ChipDnssdPublishService Sample.bound false (Some SampleMore.published)
    = (status, run)
    /\ exists keys datas,
        backendCalls run
        = [JPublish "node-1" "host" "_matter._tcp" 5540 keys datas ["_L840"]]
        /\ extractProtocol 32 "_matter._tcp" = inr ("_matter", kDnssdProtocolTcp).
Proof.
  eexists _, _. split; [reflexivity|].
  destruct (ChipDnssdPublishService_type (IPAddress := string) Sample.bound false
              SampleMore.published _ _ eq_refl)
    as [Hnone | (type & keys & datas & Hcalls & -> & Hdecode)]; [discriminate|].
  exists keys, datas. split; [exact Hcalls|].
  apply (Hdecode 32). simpl; lia.
Defined.

(** X5 at a subtype count of 2^32. *)
Lemma ChipDnssdPublishService_rejects_witness :
  sResolverObject Sample.bound && sPublishMethod Sample.bound = true
  /\ CanCastTo_uint32 (mSubTypeSize SampleMore.oversized) = false
  /\ ChipDnssdPublishService Sample.bound false (Some SampleMore.oversized)
     = (CHIP_ERROR_INVALID_ARGUMENT, [] : list Sample.Ev).
Proof.
  split; [reflexivity|]. split; [reflexivity|].
  apply (ChipDnssdPublishService_rejects (IPAddress := string) Sample.bound false
           SampleMore.oversized eq_refl).
  right. left. reflexivity.
Defined.

(** X6 at a publish of two text entries whose call raises. *)
Lemma ChipDnssdPublishService_marshals_witness :
  sResolverObject Sample.bound && sPublishMethod Sample.bound = true
  /\ CanCastTo_uint32 (mTextEntrySize SampleMore.published) = true
  /\ CanCastTo_uint32 (mSubTypeSize SampleMore.published) = true
  /\ ChipDnssdPublishService Sample.bound true (Some SampleMore.published)
     = (CHIP_JNI_ERROR_EXCEPTION_THROWN,
        [EvUnlockChipStack;
         EvBackend (JPublish "node-1" "host" "_matter._tcp" 5540 [Some "D"; Some "T"]
                      [(Some [56; 52; 48]%Z, 3%Z); (None, 0%Z)] ["_L840"]);
         EvLockChipStack] : list Sample.Ev).
Proof.
  split; [reflexivity|]. split; [reflexivity|]. split; [reflexivity|].
  apply (ChipDnssdPublishService_marshals (IPAddress := string) Sample.bound true
           SampleMore.published eq_refl eq_refl eq_refl).
  by repeat constructor.
Defined.

(** X7 at a successful browse. *)
Lemma ChipDnssdBrowse_session_witness :
  exists (run : list Sample.Ev) sessions',
    ChipDnssdBrowse Sample.bound true false (Some 4096%Z) ∅ (Some "_matter")
      kDnssdProtocolTcp 7 9 = (CHIP_NO_ERROR, run, sessions', Some 4096%Z)
    /\ sessions' !! 4096%Z = Some 7%Z.
Proof.
  eexists _, _. split; [reflexivity|].
  destruct (ChipDnssdBrowse_session (IPAddress := string) (InterfaceId := Z)
              Sample.bound true false (Some 4096%Z) ∅ (Some "_matter")
              kDnssdProtocolTcp 7%Z 9%Z _ _ _ _ eq_refl)
    as [(_ & sdCtx & [= <-] & _ & Hlookup & _) | (Hfail & _)]; [exact Hlookup | done].
Defined.

(** X8 at a browse followed by its stop. *)
Lemma ChipDnssdStopBrowse_after_Browse_witness :
  4096%Z <> 0%Z
  /\ (∅ : gmap Z Z) !! 4096%Z = None
  /\ sStopBrowseMethod Sample.bound = true
  /\ exists run' : list Sample.Ev,
      ChipDnssdStopBrowse Sample.bound true false (<[4096%Z := 7%Z]> ∅) 4096
      = Some (CHIP_NO_ERROR, run', ∅)
      /\ backendCalls run' = [JStopDiscover 7].
Proof.
  split; [done|]. split; [apply lookup_empty|]. split; [reflexivity|].
  destruct (ChipDnssdStopBrowse_after_Browse (IPAddress := string) (InterfaceId := Z)
              Sample.bound false false (Some 4096%Z) ∅ (Some "_matter")
              kDnssdProtocolTcp 7%Z 9%Z _ _ 4096%Z eq_refl ltac:(done)
              (lookup_empty _) eq_refl)
    as (run' & Hstop & Hcalls & _).
  exists run'. by split.
Defined.

(** X9 at a second stop of the same identifier. *)
Lemma ChipDnssdStopBrowse_twice_witness :
  backendCalls ([EvBackend (JStopDiscover 7); EvFree (BufBrowseContext 4096)]
                : list Sample.Ev) <> []
  /\ ChipDnssdStopBrowse (IPAddress := string) (InterfaceId := Z) Sample.bound true false
       (delete 4096%Z (<[4096%Z := 7%Z]> ∅)) 4096 = None.
Proof.
  split; [done|].
  apply (ChipDnssdStopBrowse_twice (IPAddress := string) (InterfaceId := Z)
           Sample.bound true false false (<[4096%Z := 7%Z]> ∅) 4096%Z
           CHIP_NO_ERROR
           [EvBackend (JStopDiscover 7); EvFree (BufBrowseContext 4096)]
           (delete 4096%Z (<[4096%Z := 7%Z]> ∅))); [|done].
  unfold ChipDnssdStopBrowse, VerifyOrReturnError. simpl.
  by rewrite lookup_insert_eq.
Defined.

(** X10 at a browse whose context allocation fails: the call was made. *)
Lemma operations_fail_fast_witness :
  ChipDnssdBrowse Sample.bound true false None ∅ (Some "_matter")
    kDnssdProtocolTcp 7 9
  = (CHIP_ERROR_NO_MEMORY, [EvBackend (JBrowse "_matter._tcp" 7 9)] : list Sample.Ev,
     ∅, None)
  /\ length (backendCalls ([EvBackend (JBrowse "_matter._tcp" 7 9)] : list Sample.Ev)) <= 1.
Proof.
  split; [reflexivity|].
  apply (proj1 (proj2 (proj2 (proj2 (operations_fail_fast (IPAddress := string)
                                       (InterfaceId := Z) Sample.bound false))))
           true None ∅ (Some "_matter") kDnssdProtocolTcp 7%Z 9%Z
           CHIP_ERROR_NO_MEMORY _ ∅ None eq_refl).
Defined.

(** X11 at a stop-browse of a live session. *)
Lemma operations_restore_lock_witness :
  (<[4096%Z := 7%Z]> ∅ : gmap Z Z) !! 4096%Z = Some 7%Z
  /\ lockAfter true ([EvBackend (JStopDiscover 7); EvFree (BufBrowseContext 4096)]
                     : list Sample.Ev) = true.
Proof.
  assert ((<[4096%Z := 7%Z]> ∅ : gmap Z Z) !! 4096%Z = Some 7%Z) as Hlive
    by apply lookup_insert_eq.
  split; [exact Hlive|].
  apply (proj2 (proj2 (proj2 (proj2 (operations_restore_lock (IPAddress := string)
                                       (InterfaceId := Z) Sample.bound false))))
           true (<[4096%Z := 7%Z]> ∅) 4096%Z CHIP_NO_ERROR _
           (delete 4096%Z (<[4096%Z := 7%Z]> ∅))).
  unfold ChipDnssdStopBrowse, VerifyOrReturnError. simpl. by rewrite Hlive.
Defined.

(** X12 at a binding where every lookup succeeds. *)
Lemma InitializeWithObjects_methods_need_objects_witness :
  sPublishMethod (InitializeWithObjects SampleMore.allFound) = true
  /\ sResolverObject (InitializeWithObjects SampleMore.allFound) = true
  /\ sBrowserObject (InitializeWithObjects SampleMore.allFound) = true
  /\ sMdnsCallbackObject (InitializeWithObjects SampleMore.allFound) = true.
Proof.
  split; [reflexivity|].
  apply (InitializeWithObjects_methods_need_objects SampleMore.allFound). reflexivity.
Defined.

(** X13 at a binding whose callback object fails: publish is refused. *)
Lemma operations_after_InitializeWithObjects_witness :
  mdnsCallbackInit SampleMore.callbackObjectFails = false
  /\ (ChipDnssdPublishService (IPAddress := string)
        (InitializeWithObjects SampleMore.callbackObjectFails) false
        (Some SampleMore.published)).1 = CHIP_ERROR_INCORRECT_STATE.
Proof.
  split; [reflexivity|].
  apply (proj1 (proj2 (operations_after_InitializeWithObjects (IPAddress := string)
                         (InterfaceId := Z) SampleMore.callbackObjectFails false))
           SampleMore.published).
  reflexivity.
Defined.

(** X14 at a result whose port does not fit 16 bits. *)
Lemma HandleResolve_outcome_witness :
  7%Z <> 0%Z
  /\ exists service addresses error,
      resolveCallbacks
        (Sample.HandleResolve (fun _ => true) "node-1" "_matter._tcp" "host"
           (Some "fe80::1") 70000 (Some Sample.txt) 7 9)
      = [(7%Z, 9%Z, service, addresses, error)]
      /\ error <> CHIP_ERROR_UNKNOWN_RESOURCE_ID.
Proof.
  split; [done|].
  destruct (HandleResolve_outcome Sample.FromString Sample.CopyString
              Sample.kInstanceNameMaxLength Sample.kDnssdTypeAndProtocolMaxSize
              Sample.kNameSize Sample.kHostNameSize Sample.kTypeSize
              (fun _ => true) "node-1" "_matter._tcp" "host" (Some "fe80::1") 70000%Z
              (Some Sample.txt) 7%Z 9%Z ltac:(done))
    as (service & addresses & error & Hrun & _ & Hunknown & _).
  exists service, addresses, error. split; [exact Hrun|].
  intros He. apply Hunknown in He as [|]; done.
Defined.

Lemma sample_zero_port_invalid :
  ~ Sample.passesValidation "node-1" "_matter._tcp" (Some "fe80::1") 0.
Proof. by intros (Hport & _). Defined.

(** X15 at a result with port zero and three TXT entries. *)
Lemma HandleResolve_invalid_allocates_nothing_witness :
  7%Z <> 0%Z
  /\ ~ Sample.passesValidation "node-1" "_matter._tcp" (Some "fe80::1") 0
  /\ allocated (Sample.HandleResolve (fun _ => true) "node-1" "_matter._tcp" "host"
                  (Some "fe80::1") 0 (Some Sample.txt) 7 9) = [].
Proof.
  split; [done|]. split; [exact sample_zero_port_invalid|].
  destruct (HandleResolve_invalid_allocates_nothing Sample.FromString Sample.CopyString
              Sample.kInstanceNameMaxLength Sample.kDnssdTypeAndProtocolMaxSize
              Sample.kNameSize Sample.kHostNameSize Sample.kTypeSize
              (fun _ => true) "node-1" "_matter._tcp" "host" (Some "fe80::1") 0%Z
              (Some Sample.txt) 7%Z 9%Z ltac:(done) sample_zero_port_invalid)
    as (error & _ & _ & Hallocated & _).
  exact Hallocated.
Defined.

(** X16 at a result with three TXT entries, one of them with a byte above
    127. *)
Lemma HandleResolve_text_entries_witness :
  7%Z <> 0%Z
  /\ Sample.passesValidation "node-1" "_matter._tcp" (Some "fe80::1") 5540
  /\ exists (record : @DnssdService Z) (ipAddress : string),
      resolveCallbacks
        (Sample.HandleResolve (fun _ => true) "node-1" "_matter._tcp" "host"
           (Some "fe80::1") 5540 (Some Sample.txt) 7 9)
      = [(7%Z, 9%Z, Some record, [ipAddress], CHIP_NO_ERROR)]
      /\ length (textEntriesOf record) = 3
      /\ exists e, textEntriesOf record !! 1 = Some e /\ mData e = Some [255%Z].
Proof.
  split; [done|]. split; [exact sample_passesValidation|].
  destruct (HandleResolve_text_entries Sample.FromString Sample.CopyString
              Sample.kInstanceNameMaxLength Sample.kDnssdTypeAndProtocolMaxSize
              Sample.kNameSize Sample.kHostNameSize Sample.kTypeSize
              (fun _ => true) "node-1" "_matter._tcp" "host" (Some "fe80::1") 5540%Z
              Sample.txt 7%Z 9%Z ltac:(done) sample_passesValidation
              (fun _ => eq_refl))
    as (record & ipAddress & Hrun & _ & Hlen & Hentries).
  exists record, ipAddress. split; [exact Hrun|]. split; [exact Hlen|].
  destruct (Hentries 1 "CM" (Some [(-1)%Z]) eq_refl)
    as (e & He & _ & data & Hdata & _ & Hl & _ & Hbytes).
  exists e. split; [exact He|]. rewrite Hdata. f_equal.
  specialize (Hbytes 0 (-1)%Z eq_refl).
  destruct data as [|u [|u' data]]; simpl in *; try lia.
  by injection Hbytes as ->.
Defined.

(** X18 at a batch of two names. *)
Lemma HandleBrowse_delivers_witness :
  7%Z <> 0%Z
  /\ Forall (fun name => String.length name <= Sample.kInstanceNameMaxLength)
       ["node-1"; "node-2"]
  /\ extractProtocol Sample.kTypeSize "_matter._tcp" = inr ("_matter", kDnssdProtocolTcp)
  /\ browseCallbacks (Sample.HandleBrowse ["node-1"; "node-2"] "_matter._tcp" 7 9)
     = [(7%Z, 9%Z,
         Some ((fun name => setNameTypeProtocol (Sample.CopyString Sample.kNameSize name)
                              "_matter" kDnssdProtocolTcp Sample.defaultService)
                 <$> ["node-1"; "node-2"]),
         2%Z, true, CHIP_NO_ERROR)].
Proof.
  assert (Forall (fun name => String.length name <= Sample.kInstanceNameMaxLength)
            ["node-1"; "node-2"]) as Hnames.
  { repeat constructor; unfold Sample.kInstanceNameMaxLength; simpl; lia. }
  split; [done|]. split; [exact Hnames|]. split; [reflexivity|].
  unfold Sample.HandleBrowse.
  rewrite (HandleBrowse_delivers (IPAddress := string) Sample.CopyString
             Sample.kInstanceNameMaxLength Sample.kNameSize Sample.kTypeSize
             Sample.defaultService ["node-1"; "node-2"] "_matter._tcp"
             "_matter" kDnssdProtocolTcp 7%Z 9%Z ltac:(done) Hnames
             (or_intror eq_refl)).
  reflexivity.
Defined.

(** X19 at a batch whose type does not decode. *)
Lemma HandleBrowse_outcome_witness :
  7%Z <> 0%Z
  /\ leaked (Sample.HandleBrowse ["node-1"] "_matter" 7 9) = [BufServices].
Proof.
  split; [done|].
  destruct (HandleBrowse_outcome (IPAddress := string) Sample.CopyString
              Sample.kInstanceNameMaxLength Sample.kNameSize Sample.kTypeSize
              Sample.defaultService ["node-1"] "_matter" 7%Z 9%Z ltac:(done))
    as [(_ & _ & Hleak) | (Hok & _)]; [exact Hleak|].
  exfalso. apply Hok. right. split; [done|]. by intros decoded.
Defined.

End RunsMore.
